(** * Side by Side: survey parsing cascade and positional comparison

    A shallow embedding of [side_by_side.py]: the header standardizer
    ([standardize_headers]), the three layout strategies driven by
    [parse_survey_file], and the comparison loop of [update_tables].

    Conventions of the embedding.
    - A decoded sheet ([pd.read_csv] / [pd.read_excel] with [header=None]) is
      a grid of cells; a cell is blank (NaN), a text or a number.  Decoding
      bytes into the grid is pandas' work and is not modelled.
    - Numbers are exact decimals [m / 10^k] together with the two signed
      infinities; NaN is the absent value ([None]).  Binary rounding of
      float64 is not modelled, so the values of the model and of the code
      part where float64 shows: a decimal text that is no float64 and lies
      on a tie (the code formats 1.015 as 1.01, the model as 1.02), a
      numeral beyond the float64 range (the code coerces 1e400 to NaN and
      drops the row, the model keeps it), and the sign of a negative zero.
    - Strings are ASCII strings; [str.lower] and [str.strip] act on ASCII
      letters and ASCII whitespace.  Python also lowers and strips outside
      ASCII (a header cell ending in a no-break space U+00A0 is stripped by
      the code, not by the model); the texts of the cells are taken to be
      ASCII.
    - Python exceptions are values of [exn]; a function that can raise
      returns [result A = exn + A]. *)

From Stdlib Require Import List String Ascii ZArith NArith QArith Lia Bool Arith.
From Stdlib Require Import DecimalString DecimalPos DecimalN Decimal Permutation Lqa Sorted.
Import ListNotations.

Local Open Scope string_scope.
Local Open Scope list_scope.

(** ** Exceptions and the error monad

    A [ValueError] and an [IndexError] hold their message, a [KeyError]
    holds the key that was not found: a label or a row number.  The
    messages are abridged: the interpolated header lists are left out, and
    pandas' own messages of [ValueError] and [IndexError] are shortened. *)

Inductive pykey : Type :=
| KStr (s : string)
| KInt (n : nat).

Inductive exn : Type :=
| ValueError (msg : string)
| IndexError (msg : string)
| KeyError (key : pykey).

Definition is_ValueError (e : exn) : bool :=
  match e with ValueError _ => true | _ => false end.

Definition result (A : Type) : Type := (exn + A)%type.

Definition ret {A} (a : A) : result A := inr a.
Definition raise {A} (e : exn) : result A := inl e.

Definition bind {A B} (m : result A) (f : A -> result B) : result B :=
  match m with
  | inl e => inl e
  | inr a => f a
  end.

Notation "x <- m ;; k" := (bind m (fun x => k))
  (at level 61, m at next level, right associativity).

(** [for x in xs: st = body x st], stopping at the first exception. *)
Fixpoint foldM {A S} (body : A -> S -> result S) (xs : list A) (st : S)
  : result S :=
  match xs with
  | [] => ret st
  | x :: xs' => st' <- body x st ;; foldM body xs' st'
  end.

(** ** Strings: [str.lower], [str.strip], membership *)

Definition lower_ascii (c : ascii) : ascii :=
  let n := N_of_ascii c in
  if ((65 <=? n) && (n <=? 90))%N then ascii_of_N (n + 32) else c.

Fixpoint lower (s : string) : string :=
  match s with
  | EmptyString => EmptyString
  | String c r => String (lower_ascii c) (lower r)
  end.

(** ASCII characters for which [str.isspace] holds. *)
Definition is_space (c : ascii) : bool :=
  let n := N_of_ascii c in
  (((9 <=? n) && (n <=? 13)) || ((28 <=? n) && (n <=? 32)))%N.

Fixpoint lstrip (s : string) : string :=
  match s with
  | EmptyString => EmptyString
  | String c r => if is_space c then lstrip r else s
  end.

Fixpoint rstrip (s : string) : string :=
  match s with
  | EmptyString => EmptyString
  | String c r =>
      let r' := rstrip r in
      if is_space c && (r' =? "") then "" else String c r'
  end.

Definition strip (s : string) : string := rstrip (lstrip s).

(** [h in aliases] *)
Definition str_in (h : string) (l : list string) : bool :=
  existsb (String.eqb h) l.

(** ** Header mapping *)

Inductive canon : Type := MD | INC | AZ.

Definition canon_eqb (a b : canon) : bool :=
  match a, b with
  | MD, MD | INC, INC | AZ, AZ => true
  | _, _ => false
  end.

Definition canon_name (c : canon) : string :=
  match c with MD => "MD" | INC => "INC" | AZ => "AZ" end.

(** The dict [COL_MAP], in insertion order (the order [.items()] and
    [.values()] iterate in). *)
Definition COL_MAP : list (canon * list string) :=
  [ (MD,  ["md"; "measured depth"; "survey depth"; "sd"; "survey"]);
    (INC, ["inc"; "inclination"]);
    (AZ,  ["az"; "azi"; "azimuth"; "azm"]) ].

Definition COL_MAP_values : list (list string) := map snd COL_MAP.

(** ** Numbers *)

Inductive num : Type :=
| Fin (m : Z) (k : nat)      (* the decimal m / 10^k *)
| Inf (neg : bool).          (* inf, -inf *)

Definition pow10 (k : nat) : Z := 10 ^ Z.of_nat k.

Definition num_eqb (x y : num) : bool :=
  match x, y with
  | Fin m1 k1, Fin m2 k2 => (m1 * pow10 k2 =? m2 * pow10 k1)%Z
  | Inf a, Inf b => Bool.eqb a b
  | _, _ => false
  end.

(** Nearest integer to [a / b] for [0 < b], ties to the even one. *)
Definition round_half_even (a b : Z) : Z :=
  let q := (a / b)%Z in
  let r := (a mod b)%Z in
  if (2 * r <? b)%Z then q
  else if (b <? 2 * r)%Z then (q + 1)%Z
  else if Z.even q then q else (q + 1)%Z.

(** [round(x, 2)] *)
Definition round2 (x : num) : num :=
  match x with
  | Fin m k => Fin (round_half_even (m * 100) (pow10 k)) 2
  | Inf b => Inf b
  end.

Definition digit_char (d : Z) : ascii := ascii_of_N (48 + Z.to_N d).

Definition dec_string (n : Z) : string :=
  NilEmpty.string_of_uint (N.to_uint (Z.to_N n)).

Fixpoint has_char (c : ascii) (s : string) : bool :=
  match s with
  | EmptyString => false
  | String c' r => Ascii.eqb c c' || has_char c r
  end.

Definition double_quote : string := String (ascii_of_nat 34) "".

(** [repr(s)] of a text without backslash or control character: between
    double quotes when it holds a single quote and no double quote,
    between single quotes otherwise. *)
Definition py_repr (s : string) : string :=
  if has_char "'" s && negb (has_char (ascii_of_nat 34) s)
  then double_quote ++ s ++ double_quote
  else "'" ++ s ++ "'".

(** [str(e)]: the message, and for a [KeyError] the [repr] of its key. *)
Definition str_exn (e : exn) : string :=
  match e with
  | ValueError m => m
  | IndexError m => m
  | KeyError (KStr s) => py_repr s
  | KeyError (KInt n) => dec_string (Z.of_nat n)
  end.

(** [f"{x:.2f}"]: sign, integer digits, a point and two digits. *)
Definition fmt2 (x : num) : string :=
  match x with
  | Fin m k =>
      let n := round_half_even (Z.abs m * 100) (pow10 k) in
      (if (m <? 0)%Z then "-" else "")
        ++ dec_string (n / 100)
        ++ String "."
             (String (digit_char ((n / 10) mod 10))
                (String (digit_char (n mod 10)) ""))
  | Inf false => "inf"
  | Inf true => "-inf"
  end.

(** The [k] digits of [r / 10^k] after the point, for [0 <= r < 10^k]. *)
Fixpoint frac_digits (r : Z) (k : nat) : string :=
  match k with
  | O => ""
  | S k' => String (digit_char ((r / pow10 k') mod 10)) (frac_digits r k')
  end.

(** [str(x)] of a number cell, in positional notation with the scale's
    digits after the point (at least one).  Python prints the shortest
    digits that read back and uses the exponent notation for very large and
    very small magnitudes; every such text is made of digits, a sign, a
    point and the letter e, or is inf or nan. *)
Definition str_num (x : num) : string :=
  match x with
  | Fin m k =>
      let a := Z.abs m in
      (if (m <? 0)%Z then "-" else "")
        ++ dec_string (a / pow10 k) ++ "."
        ++ (match k with O => "0" | _ => frac_digits (a mod pow10 k) k end)
  | Inf false => "inf"
  | Inf true => "-inf"
  end.

(** ** [pd.to_numeric(..., errors='coerce')] on a text

    pandas reads a decimal numeral: optional blanks, an optional sign,
    digits with an optional point (at least one digit in all), an optional
    exponent [e] or [E] with its own sign and at least one digit, optional
    blanks; failing that, the words inf and infinity with an optional sign,
    in any case.  Everything else, nan included, is coerced to NaN. *)

(** The blanks the numeral reader skips: space, tab, line feed, vertical
    tab, form feed, carriage return. *)
Definition is_blank_char (c : ascii) : bool :=
  let n := N_of_ascii c in (((9 <=? n) && (n <=? 13)) || (n =? 32))%N.

Fixpoint skip_blanks (s : string) : string :=
  match s with
  | EmptyString => EmptyString
  | String c r => if is_blank_char c then skip_blanks r else s
  end.

Definition is_digit (c : ascii) : bool :=
  let n := N_of_ascii c in ((48 <=? n) && (n <=? 57))%N.

Definition digit_val (c : ascii) : Z := Z.of_N (N_of_ascii c) - 48.

Fixpoint span_digits (s : string) : string * string :=
  match s with
  | EmptyString => ("", "")
  | String c r =>
      if is_digit c
      then let (d, rest) := span_digits r in (String c d, rest)
      else ("", s)
  end.

Fixpoint digits_value_acc (acc : Z) (s : string) : Z :=
  match s with
  | EmptyString => acc
  | String c r => digits_value_acc (acc * 10 + digit_val c) r
  end.

Definition digits_value (s : string) : Z := digits_value_acc 0 s.

(** An optional sign: [(negative, rest)]. *)
Definition take_sign (s : string) : bool * string :=
  match s with
  | String "-" r => (true, r)
  | String "+" r => (false, r)
  | _ => (false, s)
  end.

(** An optional fraction: the digits after a point, and the rest. *)
Definition take_fraction (s : string) : string * string :=
  match s with
  | String "." r => span_digits r
  | _ => ("", s)
  end.

(** An optional exponent.  [None]: an [e] that no digit follows. *)
Definition take_exponent (s : string) : option (Z * string) :=
  match s with
  | String c r =>
      if (Ascii.eqb c "e" || Ascii.eqb c "E")%bool then
        let (neg, r1) := take_sign r in
        let (ds, r2) := span_digits r1 in
        if (String.length ds =? 0)%nat then None
        else Some (if neg then (- digits_value ds)%Z else digits_value ds, r2)
      else Some (0%Z, s)
  | EmptyString => Some (0%Z, s)
  end.

(** The value of the mantissa digits [m] with [k] of them after the point,
    times [10^e]. *)
Definition scale (neg : bool) (m : Z) (k : nat) (e : Z) : num :=
  let m' := if neg then (- m)%Z else m in
  if (0 <=? e)%Z then Fin (m' * 10 ^ e) k
  else Fin m' (k + Z.to_nat (- e)).

Definition parse_decimal (s : string) : option num :=
  let (neg, s1) := take_sign (skip_blanks s) in
  let (ip, s2) := span_digits s1 in
  let (fp, s3) := take_fraction s2 in
  if (String.length ip + String.length fp =? 0)%nat then None
  else
    match take_exponent s3 with
    | None => None
    | Some (e, s4) =>
        if (skip_blanks s4 =? "")
        then Some (scale neg (digits_value (ip ++ fp)) (String.length fp) e)
        else None
    end.

Definition parse_word (s : string) : option num :=
  let w := lower s in
  if str_in w ["inf"; "+inf"; "infinity"; "+infinity"] then Some (Inf false)
  else if str_in w ["-inf"; "-infinity"] then Some (Inf true)
  else None.

Definition to_numeric_str (s : string) : option num :=
  match parse_decimal s with
  | Some x => Some x
  | None => parse_word s
  end.

(** [pd.isna] / [pd.notnull] on a coerced value *)
Definition isna (v : option num) : bool :=
  match v with None => true | Some _ => false end.

Definition notnull (v : option num) : bool := negb (isna v).

(** ** Cells and grids *)

Inductive cell : Type :=
| Blank                (* NaN *)
| Text (s : string)
| Num (x : num).

Definition is_blank (c : cell) : bool :=
  match c with Blank => true | _ => false end.

(** [str(h)] *)
Definition py_str (c : cell) : string :=
  match c with
  | Blank => "nan"
  | Text s => s
  | Num x => str_num x
  end.

(** [pd.to_numeric] on one cell of a column, with [errors='coerce']. *)
Definition to_numeric (c : cell) : option num :=
  match c with
  | Blank => None
  | Text s => to_numeric_str s
  | Num x => Some x
  end.

(** A frame read with [header=None]: [ncols] columns, and rows that are
    read up to [ncols] cells, a missing cell being blank. *)
Record DataFrame : Type := mkDF {
  ncols : nat;
  rows : list (list cell)
}.

Definition len (df : DataFrame) : nat := List.length (rows df).

Definition cell_at (row : list cell) (j : nat) : cell := nth j row Blank.

Definition row_cells (df : DataFrame) (row : list cell) : list cell :=
  map (cell_at row) (seq 0 (ncols df)).

(** [df.dropna(how='all').reset_index(drop=True)] *)
Definition dropna_all (df : DataFrame) : DataFrame :=
  mkDF (ncols df)
       (filter (fun r => negb (forallb is_blank (row_cells df r))) (rows df)).

Definition cols_in_bounds (df : DataFrame) (cols : list nat) : bool :=
  forallb (fun j => j <? ncols df)%nat cols.

(** [df.iloc[i, cols].tolist()] *)
Definition iloc_row (df : DataFrame) (i : nat) (cols : list nat)
  : result (list cell) :=
  match nth_error (rows df) i with
  | None => raise (IndexError "single positional indexer is out-of-bounds")
  | Some r =>
      if cols_in_bounds df cols then ret (map (cell_at r) cols)
      else raise (IndexError "positional indexers are out-of-bounds")
  end.

(** [df.iloc[start:, cols]] *)
Definition iloc_from (df : DataFrame) (start : nat) (cols : list nat)
  : result (list (list cell)) :=
  if cols_in_bounds df cols
  then ret (map (fun r => map (cell_at r) cols) (skipn start (rows df)))
  else raise (IndexError "positional indexers are out-of-bounds").

(** ** [standardize_headers] *)

(** The inner [for std_key, aliases in COL_MAP.items()] with its [else]. *)
Fixpoint lookup_alias (h : string) (m : list (canon * list string))
  : option canon :=
  match m with
  | [] => None
  | (std_key, aliases) :: m' =>
      if str_in h aliases then Some std_key else lookup_alias h m'
  end.

Definition standardize_headers (headers : list cell) : list (option canon) :=
  let lower_headers := map (fun h => strip (lower (py_str h))) headers in
  map (fun h => lookup_alias h COL_MAP) lower_headers.

(** [None in std_headers] *)
Definition None_in (hs : list (option canon)) : bool :=
  existsb (fun h => match h with None => true | Some _ => false end) hs.

(** ** Parsed tables *)

(** One record of a parsed frame: the three formatted texts, by label. *)
Record SurveyRow : Type := mkRow {
  f_MD : string;
  f_INC : string;
  f_AZ : string
}.

Definition field (r : SurveyRow) (c : canon) : string :=
  match c with MD => f_MD r | INC => f_INC r | AZ => f_AZ r end.

(** A parsed frame: the column labels in the order the header resolved
    them, and the records under a dense index 0, 1, ... *)
Record SurveyTable : Type := mkTable {
  columns : list (option canon);
  records : list SurveyRow
}.

(** Position of the column labelled [c]. *)
Fixpoint position (c : canon) (hs : list (option canon)) : option nat :=
  match hs with
  | [] => None
  | h :: hs' =>
      match h with
      | Some c' => if canon_eqb c c' then Some O
                   else option_map S (position c hs')
      | None => option_map S (position c hs')
      end
  end.

(** [lambda x: f"{x:.2f}" if pd.notnull(x) else ""] *)
Definition fmt_field (v : option num) : string :=
  match v with
  | Some x => fmt2 x
  | None => ""
  end.

(** The three coerced values of one data row, by label. *)
Record NumRow : Type := mkNum {
  n_MD : option num;
  n_INC : option num;
  n_AZ : option num
}.

Definition all_notnull (r : NumRow) : bool :=
  notnull (n_MD r) && notnull (n_INC r) && notnull (n_AZ r).

Definition fmt_row (r : NumRow) : SurveyRow :=
  mkRow (fmt_field (n_MD r)) (fmt_field (n_INC r)) (fmt_field (n_AZ r)).

(** [pd.to_numeric(..., errors='coerce')] on the cells of one row under
    the columns labelled MD, INC and AZ, at positions [a], [b] and [c]. *)
Definition coerce_row (a b c : nat) (r : list cell) : NumRow :=
  mkNum (to_numeric (cell_at r a)) (to_numeric (cell_at r b))
        (to_numeric (cell_at r c)).

(** The labels among MD, INC, AZ that no column carries. *)
Definition missing_labels (hs : list (option canon)) : list canon :=
  filter (fun c => match position c hs with None => true | Some _ => false end)
         [MD; INC; AZ].

(** [str(labels)] of a list of texts. *)
Fixpoint label_list (cs : list canon) : string :=
  match cs with
  | [] => ""
  | [c] => "'" ++ canon_name c ++ "'"
  | c :: cs' => "'" ++ canon_name c ++ "', " ++ label_list cs'
  end.

(** The key of the [KeyError] that [data_df[['MD','INC','AZ']]] raises. *)
Definition not_in_index (hs : list (option canon)) : pykey :=
  match missing_labels hs with
  | [MD; INC; AZ] =>
      KStr "None of [Index(['MD', 'INC', 'AZ'], dtype='object')] are in the [columns]"
  | missing => KStr ("[" ++ label_list missing ++ "] not in index")
  end.

(** The post-processing of a data region (lines 35-42, repeated at 80-87
    and 104-111): [dropna(how='all')], the assignment of the column labels,
    the selection [data_df[['MD','INC','AZ']]] coerced with [pd.to_numeric],
    [dropna(subset=...)] with [reset_index], and the formatting.  A region
    row holds one cell per selected column.  The label assignment raises on
    a length mismatch and the selection raises [KeyError] on a label that
    no column carries; with three columns carrying the three labels each
    label names one column. *)
Definition clean_data (region : list (list cell)) (width : nat)
    (std_headers : list (option canon)) : result SurveyTable :=
  let data_df := filter (fun r => negb (forallb is_blank r)) region in
  if negb (List.length std_headers =? width)%nat
  then raise (ValueError "Length mismatch")
  else
    match position MD std_headers, position INC std_headers,
          position AZ std_headers with
    | Some a, Some b, Some c =>
        let numeric := map (coerce_row a b c) data_df in
        let kept := filter all_notnull numeric in
        ret (mkTable std_headers (map fmt_row kept))
    | _, _, _ => raise (KeyError (not_in_index std_headers))
    end.

(** ** [parse_survey_file] *)

Definition try_parse (survey_type : string) (df : DataFrame)
    (header_row_idx : nat) (header_cols : list nat)
    (data_start_row_idx : nat) (data_cols : list nat) : result SurveyTable :=
  headers <- iloc_row df header_row_idx header_cols ;;
  let std_headers := standardize_headers headers in
  if None_in std_headers
  then raise (ValueError
                ("Unknown header detected in " ++ survey_type ++ " file"))
  else
    region <- iloc_from df data_start_row_idx data_cols ;;
    clean_data region (List.length data_cols) std_headers.

(** The primary known format. *)
Definition strategy_A (survey_type : string) (df : DataFrame)
  : result SurveyTable :=
  if survey_type =? "MWD"
  then try_parse survey_type df 16 [1; 2; 3]%nat 18 [1; 2; 3]%nat
  else try_parse survey_type df 54 [0; 1; 2]%nat 56 [0; 1; 2]%nat.

(** [df.iloc[i].astype(str).str.lower()] *)
Definition lowered_row (df : DataFrame) (r : list cell) : list string :=
  map (fun c => lower (py_str c)) (row_cells df r).

(** [any(cell in aliases for aliases in COL_MAP.values())] *)
Definition matches_any (cell : string) : bool :=
  existsb (fun aliases => str_in cell aliases) COL_MAP_values.

(** [[any(cell in aliases for cell in row) for aliases in COL_MAP.values()]] *)
Definition row_matches (row : list string) : list bool :=
  map (fun aliases => existsb (fun cell => str_in cell aliases) row)
      COL_MAP_values.

(** [[j for j, cell in enumerate(row) if any(...)]] *)
Fixpoint matching_cols (j : nat) (row : list string) : list nat :=
  match row with
  | [] => []
  | cell :: row' =>
      if matches_any cell then j :: matching_cols (S j) row'
      else matching_cols (S j) row'
  end.

(** The body of the scan under [if all(matches)]. *)
Definition keyword_table (df : DataFrame) (i : nat) (row : list string)
  : result SurveyTable :=
  let header_row_idx := i in
  let data_start_idx := (i + 1)%nat in
  let cols := matching_cols 0 row in
  headers <- iloc_row df header_row_idx cols ;;
  let std_headers := standardize_headers headers in
  if None_in std_headers || negb (List.length std_headers =? 3)%nat
  then raise (ValueError "Keyword-based header detection failed.")
  else
    region <- iloc_from df data_start_idx cols ;;
    clean_data region (List.length cols) std_headers.

(** [for i in range(...)]: the first row that qualifies decides; [None]
    when the loop ends without one. *)
Fixpoint keyword_scan (df : DataFrame) (idxs : list nat)
  : result (option SurveyTable) :=
  match idxs with
  | [] => ret None
  | i :: idxs' =>
      match nth_error (rows df) i with
      | None => raise (IndexError "single positional indexer is out-of-bounds")
      | Some r =>
          let row := lowered_row df r in
          if forallb (fun b : bool => b) (row_matches row)
          then t <- keyword_table df i row ;; ret (Some t)
          else keyword_scan df idxs'
      end
  end.

(** The keyword-based detection. *)
Definition strategy_B (df : DataFrame) : result (option SurveyTable) :=
  keyword_scan df (seq 0 (Nat.min 100 (len df))).

(** The Well Seeker Pro fallback. *)
Definition strategy_C (df : DataFrame) : result SurveyTable :=
  headers <- iloc_row df 69 [0; 1; 2]%nat ;;
  let std_headers := standardize_headers headers in
  if None_in std_headers
  then raise (ValueError "Unknown header detected in WSP fallback")
  else
    sample <- iloc_row df 71 [0; 1; 2]%nat ;;
    let first_data_row :=
      if forallb (fun c => notnull (to_numeric c)) sample
      then 71%nat else 72%nat in
    region <- iloc_from df first_data_row [0; 1; 2]%nat ;;
    clean_data region 3 std_headers.

(** The cascade, from line 55 on: [df0] is the frame that [pd.read_csv] or
    [pd.read_excel] decoded from the upload (the base64 decoding and the
    check of the file extension come before and are not modelled).  Each
    [except Exception] catches whatever the strategy raised. *)
Definition parse_survey_file (df0 : DataFrame) (survey_type : string)
  : result SurveyTable :=
  let df := dropna_all df0 in
  match strategy_A survey_type df with
  | inr t => ret t
  | inl _ =>
      match strategy_B df with
      | inr (Some t) => ret t
      | _ =>
          match strategy_C df with
          | inr t => ret t
          | inl e =>
              raise (ValueError ("Failed all parsing methods: " ++ str_exn e))
          end
      end
  end.

(** ** [update_tables] *)

(** The dict [mismatches]. *)
Record Mismatches : Type := mkMis {
  m_MD : nat;
  m_INC : nat;
  m_AZ : nat;
  m_rows : nat
}.

Definition count_of (m : Mismatches) (c : canon) : nat :=
  match c with MD => m_MD m | INC => m_INC m | AZ => m_AZ m end.

(** [mismatches[col] += 1] *)
Definition bump (m : Mismatches) (c : canon) : Mismatches :=
  match c with
  | MD => mkMis (S (m_MD m)) (m_INC m) (m_AZ m) (m_rows m)
  | INC => mkMis (m_MD m) (S (m_INC m)) (m_AZ m) (m_rows m)
  | AZ => mkMis (m_MD m) (m_INC m) (S (m_AZ m)) (m_rows m)
  end.

(** [mismatches['rows'] += 1] *)
Definition bump_rows (m : Mismatches) : Mismatches :=
  mkMis (m_MD m) (m_INC m) (m_AZ m) (S (m_rows m)).

(** A highlight directive; the constant entries [color] and [fontWeight]
    are left out. *)
Record Style : Type := mkStyle {
  row_index : nat;
  column_id : string;
  backgroundColor : string
}.

Definition color_table (c : canon) : string :=
  match c with MD => "#d22e2e" | INC => "#d27c2e" | AZ => "#7c2ed2" end.

Definition color_mismatch (c : canon) : string :=
  match c with MD => "#d22e2e" | INC => "#e88325" | AZ => "#7c2ed2" end.

Record MismatchRow : Type := mkMismatch {
  Index : nat;
  MWD_MD : string; MWD_INC : string; MWD_AZ : string;
  DD_MD : string; DD_INC : string; DD_AZ : string
}.

(** [df.at[i, col]]; every record carries the three labels. *)
Definition at_ (df : SurveyTable) (i : nat) (col : canon) : result string :=
  match nth_error (records df) i with
  | Some r => ret (field r col)
  | None => raise (KeyError (KInt i))
  end.

(** [pd.isna(val_left) or pd.isna(val_right)
     or round(val_left, 2) != round(val_right, 2)] *)
Definition differs (val_left val_right : option num) : bool :=
  match val_left, val_right with
  | Some x, Some y => negb (num_eqb (round2 x) (round2 y))
  | _, _ => true
  end.

(** What the loop of [update_tables] builds up. *)
Record State : Type := mkState {
  style_cond_mwd : list Style;
  style_cond_dd : list Style;
  style_cond_mismatch : list Style;
  mismatches : Mismatches;
  mismatch_rows : list MismatchRow;
  mwd_mismatch_csv : list (list string);
  dd_mismatch_csv : list (list string)
}.

Definition init_state : State :=
  mkState [] [] [] (mkMis 0 0 0 0) [] [] [].

(** The state of one row: the outer state, [row_mismatch] and
    [mismatch_columns]. *)
Definition RowState : Type := (State * bool * list canon)%type.

(** The body of [for col in ['MD', 'INC', 'AZ']]. *)
Definition compare_field (mwd_df dd_df : SurveyTable) (i : nat) (col : canon)
    (rs : RowState) : result RowState :=
  let '(st, row_mismatch, mismatch_columns) := rs in
  l <- at_ mwd_df i col ;;
  r <- at_ dd_df i col ;;
  let val_left := to_numeric_str l in
  let val_right := to_numeric_str r in
  if differs val_left val_right then
    let color := color_table col in
    ret (mkState
           (style_cond_mwd st ++ [mkStyle i (canon_name col) color])
           (style_cond_dd st ++ [mkStyle i (canon_name col) color])
           (style_cond_mismatch st)
           (bump (mismatches st) col)
           (mismatch_rows st) (mwd_mismatch_csv st) (dd_mismatch_csv st),
         true, mismatch_columns ++ [col])
  else ret rs.

(** The directives of one mismatched row in the mismatch table. *)
Definition mismatch_styles (row : nat) (mismatch_columns : list canon)
  : list Style :=
  flat_map (fun col =>
              [mkStyle row ("MWD_" ++ canon_name col) (color_mismatch col);
               mkStyle row ("DD_" ++ canon_name col) (color_mismatch col)])
           mismatch_columns.

(** The body of [for i in range(min_len)]. *)
Definition compare_row (mwd_df dd_df : SurveyTable) (i : nat) (st : State)
  : result State :=
  rs <- foldM (compare_field mwd_df dd_df i) [MD; INC; AZ] (st, false, []) ;;
  let '(st1, row_mismatch, mismatch_columns) := rs in
  if row_mismatch : bool then
    l_md <- at_ mwd_df i MD ;;
    l_inc <- at_ mwd_df i INC ;;
    l_az <- at_ mwd_df i AZ ;;
    r_md <- at_ dd_df i MD ;;
    r_inc <- at_ dd_df i INC ;;
    r_az <- at_ dd_df i AZ ;;
    let rows' :=
      mismatch_rows st1
        ++ [mkMismatch (i + 1) l_md l_inc l_az r_md r_inc r_az] in
    ret (mkState
           (style_cond_mwd st1) (style_cond_dd st1)
           (style_cond_mismatch st1
              ++ mismatch_styles (List.length rows' - 1) mismatch_columns)
           (bump_rows (mismatches st1))
           rows'
           (mwd_mismatch_csv st1 ++ [[l_md; l_inc; l_az]])
           (dd_mismatch_csv st1 ++ [[r_md; r_inc; r_az]]))
  else ret st1.

Definition min_len (mwd_df dd_df : SurveyTable) : nat :=
  Nat.min (List.length (records mwd_df)) (List.length (records dd_df)).

(** [100 - (mismatches['rows'] / min_len * 100) if min_len > 0 else 0],
    in exact arithmetic. *)
Definition accuracy_of (rows_mismatched n : nat) : Q :=
  if (0 <? n)%nat
  then 100 - (inject_Z (Z.of_nat rows_mismatched) / inject_Z (Z.of_nat n)) * 100
  else 0.

(** The numbers the summary text prints. *)
Record Summary : Type := mkSummary {
  total_rows_compared : nat;
  counts : Mismatches;
  accuracy : Q
}.

Inductive SummaryText : Type :=
| UploadBoth
| ErrorParsing (msg : string)
| Report (s : Summary).

Definition newline : string := String (ascii_of_nat 10) "".

(** [sep.join(xs)] *)
Fixpoint join (sep : string) (xs : list string) : string :=
  match xs with
  | [] => ""
  | [x] => x
  | x :: xs' => x ++ sep ++ join sep xs'
  end.

(** ["MD,INC,AZ\n" + "\n".join([",".join(row) for row in csv]) if csv
    else ""] *)
Definition csv_text (csv : list (list string)) : string :=
  match csv with
  | [] => ""
  | _ => "MD,INC,AZ" ++ newline ++ join newline (map (join ",") csv)
  end.

(** The nine outputs of the callback. *)
Record Outputs : Type := mkOutputs {
  out_mwd_data : list SurveyRow;
  out_style_cond_mwd : list Style;
  out_dd_data : list SurveyRow;
  out_style_cond_dd : list Style;
  out_summary : SummaryText;
  out_mismatch_rows : list MismatchRow;
  out_style_cond_mismatch : list Style;
  out_mwd_csv : option string;
  out_dd_csv : option string
}.

Definition empty_outputs (s : SummaryText) : Outputs :=
  mkOutputs [] [] [] [] s [] [] None None.

(** The comparison loop over the two parsed frames. *)
Definition compare_loop (mwd_df dd_df : SurveyTable) : result State :=
  foldM (compare_row mwd_df dd_df) (seq 0 (min_len mwd_df dd_df)) init_state.

(** [update_tables] from line 304 on, the two frames parsed. *)
Definition compare_tables (mwd_df dd_df : SurveyTable) : result Outputs :=
  st <- compare_loop mwd_df dd_df ;;
  let n := min_len mwd_df dd_df in
  let summary :=
    mkSummary n (mismatches st) (accuracy_of (m_rows (mismatches st)) n) in
  ret (mkOutputs
         (records mwd_df) (style_cond_mwd st)
         (records dd_df) (style_cond_dd st)
         (Report summary)
         (mismatch_rows st) (style_cond_mismatch st)
         (Some (csv_text (mwd_mismatch_csv st)))
         (Some (csv_text (dd_mismatch_csv st)))).

(** The callback; an upload that is absent is [None]. *)
Definition update_tables (mwd_contents dd_contents : option DataFrame)
  : result Outputs :=
  match mwd_contents, dd_contents with
  | Some mwd, Some dd =>
      match parse_survey_file mwd "MWD" with
      | inl e => ret (empty_outputs (ErrorParsing (str_exn e)))
      | inr mwd_df =>
          match parse_survey_file dd "DD" with
          | inl e => ret (empty_outputs (ErrorParsing (str_exn e)))
          | inr dd_df => compare_tables mwd_df dd_df
          end
      end
  | _, _ => ret (empty_outputs UploadBoth)
  end.

(** ** The comparison loop on paired records

    What [compare_field] and [compare_row] compute once [df.at] has found
    the two records [l] and [r] of row [i]. *)

Definition differs_rows (l r : SurveyRow) (col : canon) : bool :=
  differs (to_numeric_str (field l col)) (to_numeric_str (field r col)).

Definition row_differs (l r : SurveyRow) : bool :=
  differs_rows l r MD || differs_rows l r INC || differs_rows l r AZ.

Definition field_step (i : nat) (l r : SurveyRow) (col : canon)
    (rs : RowState) : RowState :=
  let '(st, row_mismatch, mismatch_columns) := rs in
  if differs_rows l r col then
    (mkState
       (style_cond_mwd st ++ [mkStyle i (canon_name col) (color_table col)])
       (style_cond_dd st ++ [mkStyle i (canon_name col) (color_table col)])
       (style_cond_mismatch st)
       (bump (mismatches st) col)
       (mismatch_rows st) (mwd_mismatch_csv st) (dd_mismatch_csv st),
     true, mismatch_columns ++ [col])
  else rs.

Definition mismatch_record (i : nat) (l r : SurveyRow) : MismatchRow :=
  mkMismatch (i + 1) (f_MD l) (f_INC l) (f_AZ l) (f_MD r) (f_INC r) (f_AZ r).

Definition row_step (i : nat) (l r : SurveyRow) (st : State) : State :=
  let '(st1, row_mismatch, mismatch_columns) :=
    field_step i l r AZ
      (field_step i l r INC (field_step i l r MD (st, false, []))) in
  if row_mismatch : bool then
    let rows' := mismatch_rows st1 ++ [mismatch_record i l r] in
    mkState
      (style_cond_mwd st1) (style_cond_dd st1)
      (style_cond_mismatch st1
         ++ mismatch_styles (List.length rows' - 1) mismatch_columns)
      (bump_rows (mismatches st1))
      rows'
      (mwd_mismatch_csv st1 ++ [[f_MD l; f_INC l; f_AZ l]])
      (dd_mismatch_csv st1 ++ [[f_MD r; f_INC r; f_AZ r]])
  else st1.

Definition empty_row : SurveyRow := mkRow "" "" "".

Definition row_of (df : SurveyTable) (i : nat) : SurveyRow :=
  nth i (records df) empty_row.

Definition loop_step (mwd_df dd_df : SurveyTable) (st : State) (i : nat)
  : State :=
  row_step i (row_of mwd_df i) (row_of dd_df i) st.

(** The frame cut to its first [n] records. *)
Definition truncate (n : nat) (df : SurveyTable) : SurveyTable :=
  mkTable (columns df) (firstn n (records df)).

(** A mismatch record with its two sides exchanged. *)
Definition swap_sides (m : MismatchRow) : MismatchRow :=
  mkMismatch (Index m) (DD_MD m) (DD_INC m) (DD_AZ m)
             (MWD_MD m) (MWD_INC m) (MWD_AZ m).

(** ** Notions used in the statements *)

(** Case analysis on the three field tests of a row. *)
Ltac split_fields l r :=
  unfold row_step, field_step, row_differs;
  destruct (differs_rows l r MD), (differs_rows l r INC),
    (differs_rows l r AZ);
  cbn -[Nat.sub List.length mismatch_styles].

(** What a test adds to a counter. *)
Definition hit (b : bool) : nat := if b then 1%nat else 0%nat.

(** The directives of row [i] on a source table. *)
Definition field_styles (i : nat) (l r : SurveyRow) : list Style :=
  map (fun c => mkStyle i (canon_name c) (color_table c))
      (filter (differs_rows l r) [MD; INC; AZ]).

(** The test of the loop at row [i] of the two frames, for one field and
    for the row. *)
Definition differs_at (A B : SurveyTable) (c : canon) (i : nat) : bool :=
  differs_rows (row_of A i) (row_of B i) c.

Definition row_differs_at (A B : SurveyTable) (i : nat) : bool :=
  row_differs (row_of A i) (row_of B i).

(** A loop state with the two sides exchanged. *)
Definition swap_state (st : State) : State :=
  mkState (style_cond_dd st) (style_cond_mwd st) (style_cond_mismatch st)
          (mismatches st) (map swap_sides (mismatch_rows st))
          (dd_mismatch_csv st) (mwd_mismatch_csv st).

(** A frame obtained from the data region below row [start] under the
    columns [cols], with the header cells [headers]. *)
Definition cleaned (df : DataFrame) (headers : list cell) (start : nat)
    (cols : list nat) (t : SurveyTable) : Prop :=
  clean_data (map (fun r => map (cell_at r) cols) (skipn start (rows df)))
             3 (standardize_headers headers) = inr t.

(** Where the header cells and the data of a strategy lie. *)
Definition layout_A (tag : string) : nat * list nat * nat :=
  if (tag =? "MWD")%string then (16, [1; 2; 3], 18)%nat
  else (54, [0; 1; 2], 56)%nat.

(** The three canonical labels. *)
Definition canonical3 : list (option canon) := [Some MD; Some INC; Some AZ].

(** A text made of decimal digits. *)
Fixpoint all_digits (s : string) : bool :=
  match s with
  | EmptyString => true
  | String c r => is_digit c && all_digits r
  end.

(** [r] is the formatting of three numbers read from the cells of one row
    of [region] under the columns [a], [b], [c]. *)
Definition numeric_source (region : list (list cell)) (a b c : nat)
    (r : SurveyRow) : Prop :=
  exists cells x y z,
    In cells region
    /\ to_numeric (cell_at cells a) = Some x
    /\ to_numeric (cell_at cells b) = Some y
    /\ to_numeric (cell_at cells c) = Some z
    /\ r = mkRow (fmt2 x) (fmt2 y) (fmt2 z).

(** The records of [t] are, in order, the rows of a data region of [df]
    whose MD, INC and AZ cells all read as numbers. *)
Definition rows_from (df : DataFrame) (t : SurveyTable) : Prop :=
  exists start cols a b c,
    position MD (columns t) = Some a
    /\ position INC (columns t) = Some b
    /\ position AZ (columns t) = Some c
    /\ let region :=
         map (fun r => map (cell_at r) cols) (skipn start (rows df)) in
       records t
       = map fmt_row (filter all_notnull (map (coerce_row a b c) region))
       /\ Forall (numeric_source region a b c) (records t)
       /\ Forall (fun r => forall col, field r col <> "") (records t).

(** A frame that one of the three strategies returned on [df]. *)
Definition produced (df : DataFrame) (t : SurveyTable) : Prop :=
  (exists tag, strategy_A tag df = inr t)
  \/ strategy_B df = inr (Some t)
  \/ strategy_C df = inr t.

(** ** Sample sheets and frames *)

Definition csv_small : DataFrame :=
  mkDF 3 [ [Text "Well"; Blank; Blank];
           [Blank; Blank; Blank];
           [Text "Azimuth"; Text "MD"; Text "Inc"];
           [Text "10.5"; Text "100"; Text "1.254"];
           [Text "n/a"; Text "200"; Text "2"];
           [Num (Fin 115 1); Num (Fin 300 0); Text " 3e0 "] ].

Definition small_table : SurveyTable :=
  mkTable [Some AZ; Some MD; Some INC]
          [mkRow "100.00" "1.25" "10.50"; mkRow "300.00" "3.00" "11.50"].

(** A header row with whitespace around two of its cells. *)
Definition padded_sheet : DataFrame :=
  mkDF 3 [ [Text " MD"; Text "Inc"; Text "  Azimuth "];
           [Text "100"; Text "1"; Text "10"] ].

(** The same sheet with the header cells trimmed. *)
Definition trimmed_sheet : DataFrame :=
  mkDF 3 [ [Text "MD"; Text "Inc"; Text "Azimuth"];
           [Text "100"; Text "1"; Text "10"] ].

(** A sheet on the MWD template whose header cells are two MD aliases and
    an INC alias. *)
Definition dup_sheet : DataFrame :=
  mkDF 4 (repeat [Text "x"; Blank; Blank; Blank] 16
          ++ [ [Text "id"; Text "MD"; Text "SD"; Text "Inc"];
               [Text "x"; Blank; Blank; Blank];
               [Text "1"; Text "100"; Text "100"; Text "1"] ]).

Definition tabA : SurveyTable :=
  mkTable [Some MD; Some INC; Some AZ] [mkRow "100.00" "1.00" "10.00"].
Definition tabB : SurveyTable :=
  mkTable [Some MD; Some INC; Some AZ] [mkRow "100.01" "1.00" "10.00"].

Definition tab10 : SurveyTable :=
  mkTable [Some MD; Some INC; Some AZ]
          (map (fun i => mkRow (fmt2 (Fin (Z.of_nat i) 0)) "1.00" "10.00")
               (seq 0 10)).
Definition tab7 : SurveyTable :=
  mkTable [Some MD; Some INC; Some AZ]
          (map (fun i => mkRow (fmt2 (Fin (Z.of_nat i) 0)) "1.00" "10.50")
               (seq 0 7)).

(** ** Further notions used in the statements *)

(** A text made of whitespace. *)
Fixpoint all_space (s : string) : bool :=
  match s with
  | EmptyString => true
  | String c r => is_space c && all_space r
  end.

(** The sum of the three field counters. *)
Definition field_total (m : Mismatches) : nat :=
  (m_MD m + m_INC m + m_AZ m)%nat.

(** What the loop keeps true of its state: the mismatch records, the two
    export lists and the row counter go together, the directives of the
    two source tables are the same list, one per counted field, and the
    mismatch table has two directives per counted field, each pointing at
    one of its records. *)
Definition loop_invariant (st : State) : Prop :=
  List.length (mismatch_rows st) = m_rows (mismatches st)
  /\ List.length (mwd_mismatch_csv st) = m_rows (mismatches st)
  /\ List.length (dd_mismatch_csv st) = m_rows (mismatches st)
  /\ style_cond_dd st = style_cond_mwd st
  /\ List.length (style_cond_mwd st) = field_total (mismatches st)
  /\ List.length (style_cond_mismatch st)
     = (2 * field_total (mismatches st))%nat
  /\ Forall (fun d => (row_index d < List.length (mismatch_rows st))%nat)
            (style_cond_mismatch st)
  /\ (m_rows (mismatches st) <= field_total (mismatches st))%nat.

(** The test [all(matches)] of the keyword scan on row [i]. *)
Definition qualifies (df : DataFrame) (i : nat) : bool :=
  match nth_error (rows df) i with
  | Some r => forallb (fun b : bool => b) (row_matches (lowered_row df r))
  | None => false
  end.

(** The message of the keyword scan. *)
Definition keyword_failure : exn :=
  ValueError "Keyword-based header detection failed.".

(** A sheet whose header row holds four alias cells. *)
Definition wide_sheet : DataFrame :=
  mkDF 4 [ [Text "MD"; Text "Survey"; Text "Inc"; Text "Az"];
           [Text "100"; Text "100"; Text "1"; Text "10"] ].

(** A sheet on the fallback layout: header at row 69, a row of units, a
    row of labels at row 71 and one row of data. *)
Definition wsp_sheet : DataFrame :=
  mkDF 3 (repeat [Text "x"; Blank; Blank] 69
          ++ [ [Text "MD"; Text "Inc"; Text "Azi"];
               [Text "ft"; Text "deg"; Text "deg"];
               [Text "from"; Text "-"; Text "-"];
               [Text "100"; Text "1.5"; Text "10"] ]).

(** * Checks on samples *)

Example to_numeric_ex1 : to_numeric_str " 12.5e1 " = Some (Fin 1250 1).
Proof. reflexivity. Qed.
Example to_numeric_ex2 : to_numeric_str "12.5.1" = None.
Proof. reflexivity. Qed.
Example to_numeric_ex3 : to_numeric_str "-Infinity" = Some (Inf true).
Proof. reflexivity. Qed.
Example fmt2_ex1 : fmt2 (Fin (-100125) 3) = "-100.12".
Proof. reflexivity. Qed.
Example fmt2_ex2 : fmt2 (Fin 5 0) = "5.00".
Proof. reflexivity. Qed.
Example str_ex : str_num (Fin 10005 2) = "100.05".
Proof. reflexivity. Qed.
Example str_key_ex :
  str_exn (KeyError (not_in_index [Some MD; Some MD; Some INC]))
  = (double_quote ++ "['AZ'] not in index" ++ double_quote)%string.
Proof. reflexivity. Qed.
Example str_key_ex2 :
  str_exn (KeyError (not_in_index [Some INC; Some INC; Some INC]))
  = (double_quote ++ "['MD', 'AZ'] not in index" ++ double_quote)%string.
Proof. reflexivity. Qed.
Example std_ex : standardize_headers [Text "  Azimuth "; Text "x"; Num (Fin 1 0)] = [Some AZ; None; None].
Proof. reflexivity. Qed.

Example parse_small : parse_survey_file csv_small "MWD" = inr small_table.
Proof. reflexivity. Qed.

Example scenario_md_only :
  compare_tables tabA tabB
  = inr (mkOutputs (records tabA) [mkStyle 0 "MD" "#d22e2e"]
           (records tabB) [mkStyle 0 "MD" "#d22e2e"]
           (Report (mkSummary 1 (mkMis 1 0 0 1) (accuracy_of 1 1)))
           [mkMismatch 1 "100.00" "1.00" "10.00" "100.01" "1.00" "10.00"]
           [mkStyle 0 "MWD_MD" "#d22e2e"; mkStyle 0 "DD_MD" "#d22e2e"]
           (Some ("MD,INC,AZ" ++ newline ++ "100.00,1.00,10.00")%string)
           (Some ("MD,INC,AZ" ++ newline ++ "100.01,1.00,10.00")%string)).
Proof. reflexivity. Qed.

Example scenario_identical :
  option_map (fun o => out_summary o)
    (match compare_tables tabA tabA with inr o => Some o | inl _ => None end)
  = Some (Report (mkSummary 1 (mkMis 0 0 0 0) (accuracy_of 0 1))).
Proof. reflexivity. Qed.

(** * Properties *)

(** ** The comparison loop never raises *)

Lemma at_row_of (df : SurveyTable) (i : nat) (col : canon) :
  (i < List.length (records df))%nat ->
  at_ df i col = inr (field (row_of df i) col).
Proof.
  intros H. unfold at_, row_of.
  destruct (nth_error (records df) i) as [r|] eqn:E.
  - rewrite (nth_error_nth _ _ _ E). reflexivity.
  - apply nth_error_None in E. lia.
Qed.

Lemma compare_field_step (A B : SurveyTable) (i : nat) (col : canon)
    (rs : RowState) :
  (i < min_len A B)%nat ->
  compare_field A B i col rs
  = inr (field_step i (row_of A i) (row_of B i) col rs).
Proof.
  intros H. unfold min_len in H.
  unfold compare_field, field_step.
  destruct rs as [[st rm] mc].
  rewrite !at_row_of by lia. simpl.
  unfold differs_rows.
  destruct (differs _ _); reflexivity.
Qed.

Lemma compare_row_step (A B : SurveyTable) (i : nat) (st : State) :
  (i < min_len A B)%nat ->
  compare_row A B i st = inr (loop_step A B st i).
Proof.
  intros H. unfold compare_row, loop_step, row_step.
  cbn [foldM].
  rewrite compare_field_step by assumption. cbn [bind].
  rewrite compare_field_step by assumption. cbn [bind].
  rewrite compare_field_step by assumption. cbn [bind ret].
  destruct (field_step i _ _ AZ _) as [[st1 rm] mc].
  destruct rm; [|reflexivity].
  unfold min_len in H.
  rewrite !at_row_of by lia. reflexivity.
Qed.

Lemma foldM_compare_row (A B : SurveyTable) (idxs : list nat) (st : State) :
  Forall (fun i => (i < min_len A B)%nat) idxs ->
  foldM (compare_row A B) idxs st = inr (fold_left (loop_step A B) idxs st).
Proof.
  revert st. induction idxs as [|i idxs IH]; intros st H.
  - reflexivity.
  - inversion H; subst. cbn [foldM fold_left].
    rewrite compare_row_step by assumption. cbn [bind].
    apply IH. assumption.
Qed.

Lemma seq_below (n : nat) : Forall (fun i => (i < n)%nat) (seq 0 n).
Proof.
  apply Forall_forall. intros i Hi. apply in_seq in Hi. lia.
Qed.

Lemma compare_loop_pure (A B : SurveyTable) :
  compare_loop A B
  = inr (fold_left (loop_step A B) (seq 0 (min_len A B)) init_state).
Proof.
  unfold compare_loop. apply foldM_compare_row. apply seq_below.
Qed.

(** ** One row of the loop, field by field *)

Lemma row_step_count (i : nat) (l r : SurveyRow) (st : State) (c : canon) :
  count_of (mismatches (row_step i l r st)) c
  = (count_of (mismatches st) c + hit (differs_rows l r c))%nat.
Proof.
  destruct c; split_fields l r; unfold hit; lia.
Qed.

Lemma row_step_rows (i : nat) (l r : SurveyRow) (st : State) :
  m_rows (mismatches (row_step i l r st))
  = (m_rows (mismatches st) + hit (row_differs l r))%nat.
Proof.
  split_fields l r; unfold hit; lia.
Qed.

Lemma row_step_style_mwd (i : nat) (l r : SurveyRow) (st : State) :
  style_cond_mwd (row_step i l r st)
  = style_cond_mwd st ++ field_styles i l r.
Proof.
  unfold field_styles. cbn [filter].
  split_fields l r; rewrite <- ?app_assoc, ?app_nil_r; reflexivity.
Qed.

Lemma row_step_style_dd (i : nat) (l r : SurveyRow) (st : State) :
  style_cond_dd (row_step i l r st)
  = style_cond_dd st ++ field_styles i l r.
Proof.
  unfold field_styles. cbn [filter].
  split_fields l r; rewrite <- ?app_assoc, ?app_nil_r; reflexivity.
Qed.

Lemma row_step_mismatch_rows (i : nat) (l r : SurveyRow) (st : State) :
  mismatch_rows (row_step i l r st)
  = mismatch_rows st
      ++ (if row_differs l r then [mismatch_record i l r] else []).
Proof.
  split_fields l r; rewrite ?app_nil_r; reflexivity.
Qed.

Lemma row_step_mwd_csv (i : nat) (l r : SurveyRow) (st : State) :
  mwd_mismatch_csv (row_step i l r st)
  = mwd_mismatch_csv st
      ++ (if row_differs l r then [[f_MD l; f_INC l; f_AZ l]] else []).
Proof.
  split_fields l r; rewrite ?app_nil_r; reflexivity.
Qed.

Lemma row_step_dd_csv (i : nat) (l r : SurveyRow) (st : State) :
  dd_mismatch_csv (row_step i l r st)
  = dd_mismatch_csv st
      ++ (if row_differs l r then [[f_MD r; f_INC r; f_AZ r]] else []).
Proof.
  split_fields l r; rewrite ?app_nil_r; reflexivity.
Qed.

(** ** The whole loop in closed form *)

Lemma length_filter_cons {X} (f : X -> bool) (x : X) (xs : list X) :
  List.length (filter f (x :: xs))
  = (hit (f x) + List.length (filter f xs))%nat.
Proof. simpl. destruct (f x); reflexivity. Qed.

Section ClosedForm.

Variables A B : SurveyTable.

Lemma fold_count (c : canon) (idxs : list nat) (st : State) :
  count_of (mismatches (fold_left (loop_step A B) idxs st)) c
  = (count_of (mismatches st) c
     + List.length (filter (differs_at A B c) idxs))%nat.
Proof.
  revert st. induction idxs as [|i idxs IH]; intros st.
  - simpl. lia.
  - cbn [fold_left]. rewrite IH, length_filter_cons.
    unfold loop_step. rewrite row_step_count. unfold differs_at. lia.
Qed.

Lemma fold_rows (idxs : list nat) (st : State) :
  m_rows (mismatches (fold_left (loop_step A B) idxs st))
  = (m_rows (mismatches st)
     + List.length (filter (row_differs_at A B) idxs))%nat.
Proof.
  revert st. induction idxs as [|i idxs IH]; intros st.
  - simpl. lia.
  - cbn [fold_left]. rewrite IH, length_filter_cons.
    unfold loop_step. rewrite row_step_rows. unfold row_differs_at. lia.
Qed.

Lemma fold_style_mwd (idxs : list nat) (st : State) :
  style_cond_mwd (fold_left (loop_step A B) idxs st)
  = style_cond_mwd st
      ++ flat_map (fun i => field_styles i (row_of A i) (row_of B i)) idxs.
Proof.
  revert st. induction idxs as [|i idxs IH]; intros st.
  - simpl. now rewrite app_nil_r.
  - cbn [fold_left flat_map]. rewrite IH. unfold loop_step.
    rewrite row_step_style_mwd, <- app_assoc. reflexivity.
Qed.

Lemma fold_style_dd (idxs : list nat) (st : State) :
  style_cond_dd (fold_left (loop_step A B) idxs st)
  = style_cond_dd st
      ++ flat_map (fun i => field_styles i (row_of A i) (row_of B i)) idxs.
Proof.
  revert st. induction idxs as [|i idxs IH]; intros st.
  - simpl. now rewrite app_nil_r.
  - cbn [fold_left flat_map]. rewrite IH. unfold loop_step.
    rewrite row_step_style_dd, <- app_assoc. reflexivity.
Qed.

Lemma fold_mismatch_rows (idxs : list nat) (st : State) :
  mismatch_rows (fold_left (loop_step A B) idxs st)
  = mismatch_rows st
      ++ map (fun i => mismatch_record i (row_of A i) (row_of B i))
             (filter (row_differs_at A B) idxs).
Proof.
  revert st. induction idxs as [|i idxs IH]; intros st.
  - simpl. now rewrite app_nil_r.
  - cbn [fold_left filter]. rewrite IH. unfold loop_step.
    rewrite row_step_mismatch_rows, <- app_assoc.
    change (row_differs (row_of A i) (row_of B i))
      with (row_differs_at A B i).
    destruct (row_differs_at A B i); reflexivity.
Qed.

Lemma fold_mwd_csv (idxs : list nat) (st : State) :
  mwd_mismatch_csv (fold_left (loop_step A B) idxs st)
  = mwd_mismatch_csv st
      ++ map (fun i => let l := row_of A i in [f_MD l; f_INC l; f_AZ l])
             (filter (row_differs_at A B) idxs).
Proof.
  revert st. induction idxs as [|i idxs IH]; intros st.
  - simpl. now rewrite app_nil_r.
  - cbn [fold_left filter]. rewrite IH. unfold loop_step.
    rewrite row_step_mwd_csv, <- app_assoc.
    change (row_differs (row_of A i) (row_of B i))
      with (row_differs_at A B i).
    destruct (row_differs_at A B i); reflexivity.
Qed.

Lemma fold_dd_csv (idxs : list nat) (st : State) :
  dd_mismatch_csv (fold_left (loop_step A B) idxs st)
  = dd_mismatch_csv st
      ++ map (fun i => let r := row_of B i in [f_MD r; f_INC r; f_AZ r])
             (filter (row_differs_at A B) idxs).
Proof.
  revert st. induction idxs as [|i idxs IH]; intros st.
  - simpl. now rewrite app_nil_r.
  - cbn [fold_left filter]. rewrite IH. unfold loop_step.
    rewrite row_step_dd_csv, <- app_assoc.
    change (row_differs (row_of A i) (row_of B i))
      with (row_differs_at A B i).
    destruct (row_differs_at A B i); reflexivity.
Qed.

End ClosedForm.

Lemma compare_tables_pure (A B : SurveyTable) :
  compare_tables A B
  = let st := fold_left (loop_step A B) (seq 0 (min_len A B)) init_state in
    let n := min_len A B in
    inr (mkOutputs
           (records A) (style_cond_mwd st) (records B) (style_cond_dd st)
           (Report (mkSummary n (mismatches st)
                      (accuracy_of (m_rows (mismatches st)) n)))
           (mismatch_rows st) (style_cond_mismatch st)
           (Some (csv_text (mwd_mismatch_csv st)))
           (Some (csv_text (dd_mismatch_csv st)))).
Proof.
  unfold compare_tables. rewrite compare_loop_pure. reflexivity.
Qed.

(** The callback never raises. *)
Lemma update_tables_total (mwd_contents dd_contents : option DataFrame) :
  exists o, update_tables mwd_contents dd_contents = inr o.
Proof.
  unfold update_tables.
  destruct mwd_contents as [mwd|], dd_contents as [dd|];
    try (eexists; reflexivity).
  destruct (parse_survey_file mwd "MWD") as [e|A]; [eexists; reflexivity|].
  destruct (parse_survey_file dd "DD") as [e|B]; [eexists; reflexivity|].
  rewrite compare_tables_pure. eexists; reflexivity.
Qed.

Lemma canon_name_inj (a b : canon) : canon_name a = canon_name b -> a = b.
Proof. destruct a, b; simpl; intros H; try reflexivity; discriminate. Qed.

Lemma in_field_styles (i j : nat) (l r : SurveyRow) (c : canon) :
  In (mkStyle i (canon_name c) (color_table c)) (field_styles j l r)
  <-> i = j /\ differs_rows l r c = true.
Proof.
  unfold field_styles. rewrite in_map_iff. split.
  - intros (c' & Heq & Hin). apply filter_In in Hin as [_ Hd].
    injection Heq as Hj Hn _. apply canon_name_inj in Hn. subst. auto.
  - intros [-> Hd]. exists c. split; [reflexivity|].
    apply filter_In. split; [destruct c; simpl; auto | exact Hd].
Qed.

Lemma in_loop_styles (A B : SurveyTable) (n i : nat) (c : canon) :
  In (mkStyle i (canon_name c) (color_table c))
     (flat_map (fun j => field_styles j (row_of A j) (row_of B j)) (seq 0 n))
  <-> (i < n)%nat /\ differs_at A B c i = true.
Proof.
  rewrite in_flat_map. split.
  - intros (j & Hj & Hin). apply in_field_styles in Hin as [-> Hd].
    apply in_seq in Hj. split; [lia | exact Hd].
  - intros [Hi Hd]. exists i. split; [apply in_seq; lia|].
    apply in_field_styles. auto.
Qed.

Lemma at_inr_lt (df : SurveyTable) (i : nat) (c : canon) (s : string) :
  at_ df i c = inr s ->
  (i < List.length (records df))%nat /\ s = field (row_of df i) c.
Proof.
  intros H.
  assert (Hlt : (i < List.length (records df))%nat).
  { unfold at_ in H. destruct (nth_error (records df) i) eqn:E.
    - apply nth_error_Some. congruence.
    - discriminate. }
  split; [exact Hlt|]. rewrite at_row_of in H by exact Hlt. congruence.
Qed.

(** What the condition of the loop says about the two re-parsed texts. *)
Lemma differs_spec (vl vr : option num) :
  differs vl vr = true
  <-> vl = None \/ vr = None
      \/ exists x y, vl = Some x /\ vr = Some y
                     /\ num_eqb (round2 x) (round2 y) = false.
Proof.
  destruct vl as [x|], vr as [y|]; simpl; split; intros H; auto.
  - right. right. exists x, y. repeat split. now apply negb_true_iff.
  - destruct H as [H|[H|(x' & y' & Hx & Hy & H)]]; try discriminate.
    injection Hx as <-. injection Hy as <-. now apply negb_true_iff.
Qed.

(** C1: for a compared row [i] and a field [col], with [l] and [r] the
    formatted texts of the two sides, the comparison returns its outputs
    (nothing is raised), and the field is recorded as a mismatch (a
    highlight directive for cell [(i, col)] on either table) if and only if
    a text fails to re-parse or the two values rounded to two decimals
    differ; the counter of the field counts exactly those rows. *)
Theorem C1_field_mismatch_iff (A B : SurveyTable) (i : nat) (col : canon)
    (l r : string) :
  at_ A i col = inr l ->
  at_ B i col = inr r ->
  exists o s,
    compare_tables A B = inr o /\ out_summary o = Report s
    /\ (i < min_len A B)%nat
    /\ (In (mkStyle i (canon_name col) (color_table col))
           (out_style_cond_mwd o)
        <-> to_numeric_str l = None \/ to_numeric_str r = None
            \/ exists x y, to_numeric_str l = Some x
                           /\ to_numeric_str r = Some y
                           /\ num_eqb (round2 x) (round2 y) = false)
    /\ out_style_cond_dd o = out_style_cond_mwd o
    /\ count_of (counts s) col
       = List.length
           (filter (fun j => existsb
                      (fun d => (row_index d =? j)%nat
                                && (column_id d =? canon_name col)%string)
                      (out_style_cond_mwd o))
                   (seq 0 (min_len A B))).
Proof.
  intros HA HB.
  apply at_inr_lt in HA as [HiA ->]. apply at_inr_lt in HB as [HiB ->].
  rewrite compare_tables_pure. cbv zeta.
  eexists. eexists. split; [reflexivity|]. split; [reflexivity|].
  cbn [out_style_cond_mwd out_style_cond_dd counts].
  assert (Hi : (i < min_len A B)%nat) by (unfold min_len; lia).
  rewrite fold_style_mwd, fold_style_dd, fold_count.
  cbn [init_state style_cond_mwd style_cond_dd mismatches].
  rewrite !app_nil_l.
  split; [exact Hi|]. split; [|split].
  - rewrite in_loop_styles. unfold differs_at, differs_rows.
    rewrite differs_spec. tauto.
  - reflexivity.
  - replace (count_of (mkMis 0 0 0 0) col) with 0%nat by (destruct col; reflexivity).
    simpl Nat.add. f_equal. apply filter_ext_in. intros j Hj.
    apply in_seq in Hj.
    apply eq_true_iff_eq. rewrite existsb_exists. split.
    + intros Hd. exists (mkStyle j (canon_name col) (color_table col)).
      split.
      * apply in_loop_styles. split; [lia | exact Hd].
      * cbn. rewrite Nat.eqb_refl, String.eqb_refl. reflexivity.
    + intros (d & Hin & Hd). apply andb_true_iff in Hd as [H1 H2].
      apply Nat.eqb_eq in H1. apply String.eqb_eq in H2.
      apply in_flat_map in Hin as (j' & Hj' & Hin).
      unfold field_styles in Hin. apply in_map_iff in Hin as (c' & <- & Hc').
      cbn in H1, H2. subst j'. apply canon_name_inj in H2. subst c'.
      apply filter_In in Hc' as [_ Hc']. exact Hc'.
Qed.

Lemma C1_field_mismatch_iff_witness :
  at_ tabA 0 MD = inr "100.00" /\ at_ tabB 0 MD = inr "100.01"
  /\ exists o s, compare_tables tabA tabB = inr o /\ out_summary o = Report s
                 /\ count_of (counts s) MD = 1%nat.
Proof.
  split; [reflexivity|]. split; [reflexivity|].
  destruct (C1_field_mismatch_iff tabA tabB 0%nat MD "100.00" "100.01"
              eq_refl eq_refl) as (o & s & Ho & Hs & _).
  exists o, s. split; [exact Ho|]. split; [exact Hs|].
  injection Ho as <-. injection Hs as <-. reflexivity.
Defined.

(** ** Counters and accuracy *)

Lemma Q_of_nat_pos (n : nat) : (0 < n)%nat -> 0 < inject_Z (Z.of_nat n).
Proof.
  intros H. unfold Qlt. simpl. lia.
Qed.

Lemma accuracy_of_formula (k n : nat) :
  (0 < n)%nat ->
  accuracy_of k n
  == 100 * (1 - inject_Z (Z.of_nat k) / inject_Z (Z.of_nat n)).
Proof.
  intros H. unfold accuracy_of.
  destruct (Nat.ltb_spec 0 n) as [_|]; [|lia].
  field. intros E. apply Q_of_nat_pos in H. rewrite E in H.
  discriminate.
Qed.

Lemma accuracy_of_range (k n : nat) :
  (k <= n)%nat -> 0 <= accuracy_of k n /\ accuracy_of k n <= 100.
Proof.
  intros H. unfold accuracy_of.
  destruct (Nat.ltb_spec 0 n) as [Hn|Hn].
  - assert (Hq : 0 <= inject_Z (Z.of_nat k) / inject_Z (Z.of_nat n) <= 1).
    { pose proof (Q_of_nat_pos n Hn) as Hp. split.
      - apply Qle_shift_div_l; [exact Hp|].
        rewrite Qmult_0_l. unfold Qle. simpl. lia.
      - apply Qle_shift_div_r; [exact Hp|].
        rewrite Qmult_1_l. unfold Qle. simpl. lia. }
    destruct Hq as [H0 H1].
    set (q := inject_Z (Z.of_nat k) / inject_Z (Z.of_nat n)) in *.
    split; lra.
  - split; discriminate.
Qed.

Lemma filter_length_seq (f : nat -> bool) (n : nat) :
  (List.length (filter f (seq 0 n)) <= n)%nat.
Proof.
  etransitivity; [apply filter_length_le|]. now rewrite length_seq.
Qed.

(** C10: each field counter and the row counter are at most the number of
    compared rows, and the accuracy lies between 0 and 100. *)
Theorem C10_counters_bounded (A B : SurveyTable) :
  exists o s,
    compare_tables A B = inr o /\ out_summary o = Report s
    /\ (forall col, count_of (counts s) col <= min_len A B)%nat
    /\ (m_rows (counts s) <= min_len A B)%nat
    /\ 0 <= accuracy s /\ accuracy s <= 100.
Proof.
  rewrite compare_tables_pure. cbv zeta.
  eexists. eexists. split; [reflexivity|]. split; [reflexivity|].
  cbn [counts accuracy].
  assert (Hr : (m_rows (mismatches (fold_left (loop_step A B)
                   (seq 0 (min_len A B)) init_state)) <= min_len A B)%nat).
  { rewrite fold_rows. cbn. apply filter_length_seq. }
  split; [|split; [exact Hr | apply accuracy_of_range; exact Hr]].
  intros col. rewrite fold_count.
  replace (count_of (mismatches init_state) col) with 0%nat
    by (destruct col; reflexivity).
  apply filter_length_seq.
Qed.

(** C2: the accuracy reported is 100 * (1 - rowMismatchCount / minLen) when
    rows were compared; with no row to compare it is 0, nothing is raised
    and the mismatch list is empty. *)
Theorem C2_accuracy (A B : SurveyTable) :
  exists o s,
    compare_tables A B = inr o /\ out_summary o = Report s
    /\ ((0 < min_len A B)%nat ->
        accuracy s
        == 100 * (1 - inject_Z (Z.of_nat (m_rows (counts s)))
                      / inject_Z (Z.of_nat (min_len A B))))
    /\ (min_len A B = 0%nat ->
        accuracy s = 0 /\ out_mismatch_rows o = []).
Proof.
  rewrite compare_tables_pure. cbv zeta.
  eexists. eexists. split; [reflexivity|]. split; [reflexivity|].
  cbn [counts accuracy out_mismatch_rows]. split.
  - intros H. apply accuracy_of_formula. exact H.
  - intros H. rewrite H. split; reflexivity.
Qed.

Lemma C2_accuracy_witness :
  (0 < min_len tabA tabB)%nat /\ min_len (mkTable [] []) tabB = 0%nat
  /\ (exists o s, compare_tables tabA tabB = inr o
                  /\ out_summary o = Report s /\ accuracy s == 0)
  /\ (exists o, compare_tables (mkTable [] []) tabB = inr o
                /\ out_mismatch_rows o = []).
Proof.
  split; [cbv; reflexivity|]. split; [reflexivity|]. split.
  - destruct (C2_accuracy tabA tabB) as (o & s & Ho & Hs & Hpos & _).
    exists o, s. split; [exact Ho|]. split; [exact Hs|].
    rewrite Hpos by (cbv; reflexivity).
    injection Ho as <-. injection Hs as <-. reflexivity.
  - destruct (C2_accuracy (mkTable [] []) tabB) as (o & s & Ho & _ & _ & H0).
    exists o. split; [exact Ho|]. apply H0. reflexivity.
Defined.

(** ** Truncation to the shorter frame *)

Lemma fold_left_ext_in {S X} (f g : S -> X -> S) (xs : list X) (st : S) :
  (forall x s, In x xs -> f s x = g s x) ->
  fold_left f xs st = fold_left g xs st.
Proof.
  revert st. induction xs as [|x xs IH]; intros st H.
  - reflexivity.
  - cbn [fold_left]. rewrite (H x st) by (left; reflexivity).
    apply IH. intros y s Hy. apply H. right. exact Hy.
Qed.

Lemma nth_firstn_below {X} (l : list X) (n i : nat) (d : X) :
  (i < n)%nat -> nth i (firstn n l) d = nth i l d.
Proof.
  revert n i. induction l as [|x l IH]; intros n i H.
  - rewrite firstn_nil. reflexivity.
  - destruct n as [|n]; [lia|]. destruct i as [|i]; [reflexivity|].
    cbn [firstn nth]. apply IH. lia.
Qed.

Lemma row_of_truncate (n i : nat) (df : SurveyTable) :
  (i < n)%nat -> row_of (truncate n df) i = row_of df i.
Proof.
  intros H. unfold row_of, truncate. cbn [records].
  now apply nth_firstn_below.
Qed.

Lemma min_len_truncate (A B : SurveyTable) :
  min_len (truncate (min_len A B) A) (truncate (min_len A B) B)
  = min_len A B.
Proof.
  unfold min_len, truncate. cbn [records]. rewrite !length_firstn. lia.
Qed.

Lemma compare_loop_truncate (A B : SurveyTable) :
  compare_loop (truncate (min_len A B) A) (truncate (min_len A B) B)
  = compare_loop A B.
Proof.
  rewrite !compare_loop_pure, min_len_truncate. f_equal.
  apply fold_left_ext_in. intros i st Hi. apply in_seq in Hi.
  unfold loop_step. rewrite !row_of_truncate by lia. reflexivity.
Qed.

(** C5: the comparison examines exactly the rows below [minLen].  Every
    row [i < minLen] is read on both sides and tested field by field: the
    cell [(i, col)] has its directive exactly when the test of the two
    texts holds, and the row has its mismatch record exactly when one of
    its fields mismatches; the counters count these rows of
    [range(minLen)] and no other.  Nothing beyond is read: the loop returns
    what it returns on the two frames cut to [minLen] records, every
    directive and every mismatch record points at a row below [minLen],
    the number of rows compared and the denominator of the accuracy are
    [minLen]; ten rows against seven compare seven. *)
Theorem C5_truncation (A B : SurveyTable) :
  compare_loop A B
  = compare_loop (truncate (min_len A B) A) (truncate (min_len A B) B)
  /\ exists o s,
       compare_tables A B = inr o /\ out_summary o = Report s
       /\ total_rows_compared s = min_len A B
       /\ accuracy s = accuracy_of (m_rows (counts s)) (min_len A B)
       /\ Forall (fun d => (row_index d < min_len A B)%nat)
                 (out_style_cond_mwd o ++ out_style_cond_dd o)
       /\ Forall (fun m => (1 <= Index m <= min_len A B)%nat)
                 (out_mismatch_rows o)
       /\ (List.length (records A) = 10%nat ->
           List.length (records B) = 7%nat ->
           total_rows_compared s = 7%nat)
       /\ (forall i col,
             (i < min_len A B)%nat ->
             exists l r,
               at_ A i col = inr l /\ at_ B i col = inr r
               /\ (In (mkStyle i (canon_name col) (color_table col))
                      (out_style_cond_mwd o)
                   <-> differs (to_numeric_str l) (to_numeric_str r) = true)
               /\ (In (mkStyle i (canon_name col) (color_table col))
                      (out_style_cond_dd o)
                   <-> differs (to_numeric_str l) (to_numeric_str r) = true))
       /\ (forall i,
             (i < min_len A B)%nat ->
             ((exists m, In m (out_mismatch_rows o)
                         /\ Index m = (i + 1)%nat)
              <-> exists col l r,
                    at_ A i col = inr l /\ at_ B i col = inr r
                    /\ differs (to_numeric_str l) (to_numeric_str r) = true))
       /\ (forall col,
             count_of (counts s) col
             = List.length
                 (filter (fun i =>
                            differs (to_numeric_str (field (row_of A i) col))
                                    (to_numeric_str (field (row_of B i) col)))
                         (seq 0 (min_len A B))))
       /\ m_rows (counts s)
          = List.length
              (filter (fun i =>
                         existsb
                           (fun col =>
                              differs
                                (to_numeric_str (field (row_of A i) col))
                                (to_numeric_str (field (row_of B i) col)))
                           [MD; INC; AZ])
                      (seq 0 (min_len A B))).
Proof.
  split; [symmetry; apply compare_loop_truncate|].
  rewrite compare_tables_pure. cbv zeta.
  eexists. eexists. split; [reflexivity|]. split; [reflexivity|].
  cbn [total_rows_compared accuracy counts out_style_cond_mwd
       out_style_cond_dd out_mismatch_rows].
  rewrite fold_style_mwd, fold_style_dd, fold_mismatch_rows, fold_rows.
  cbn [init_state style_cond_mwd style_cond_dd mismatch_rows mismatches
       m_rows]. rewrite !app_nil_l.
  split; [reflexivity|]. split; [reflexivity|].
  split; [|split; [|split; [|split; [|split; [|split]]]]].
  - apply Forall_app.
    cut (Forall (fun d => (row_index d < min_len A B)%nat)
      (flat_map (fun i => field_styles i (row_of A i) (row_of B i))
         (seq 0 (min_len A B)))); [tauto|].
    apply Forall_forall. intros d Hd.
    apply in_flat_map in Hd as (j & Hj & Hd). apply in_seq in Hj.
    unfold field_styles in Hd. apply in_map_iff in Hd as (c & <- & _).
    cbn. lia.
  - apply Forall_forall. intros m Hm.
    apply in_map_iff in Hm as (j & <- & Hj).
    apply filter_In in Hj as [Hj _]. apply in_seq in Hj. cbn. lia.
  - intros HA HB. unfold min_len. rewrite HA, HB. reflexivity.
  - intros i col Hi.
    exists (field (row_of A i) col), (field (row_of B i) col).
    rewrite !at_row_of by (unfold min_len in Hi; lia).
    split; [reflexivity|]. split; [reflexivity|].
    rewrite in_loop_styles. unfold differs_at, differs_rows.
    split; tauto.
  - intros i Hi. split.
    + intros (m & Hm & Hidx). apply in_map_iff in Hm as (j & <- & Hj).
      cbn [mismatch_record Index] in Hidx.
      assert (j = i) by lia. subst j.
      apply filter_In in Hj as [_ Hj].
      unfold row_differs_at, row_differs, differs_rows in Hj.
      assert (HiA : (i < List.length (records A))%nat)
        by (unfold min_len in Hi; lia).
      assert (HiB : (i < List.length (records B))%nat)
        by (unfold min_len in Hi; lia).
      apply orb_true_iff in Hj as [Hj|Hj];
        [apply orb_true_iff in Hj as [Hj|Hj]|];
        [exists MD | exists INC | exists AZ];
        eexists; eexists;
        (split; [apply (at_row_of A i _ HiA)|]);
        (split; [apply (at_row_of B i _ HiB) | exact Hj]).
    + intros (col & l & r & Hl & Hr & Hd).
      apply at_inr_lt in Hl as [_ ->]. apply at_inr_lt in Hr as [_ ->].
      exists (mismatch_record i (row_of A i) (row_of B i)).
      split; [|reflexivity].
      apply in_map_iff. exists i. split; [reflexivity|].
      apply filter_In. split; [apply in_seq; lia|].
      unfold row_differs_at, row_differs, differs_rows.
      destruct col; cbn [field] in Hd |- *; rewrite Hd;
        rewrite ?orb_true_r; reflexivity.
  - intros col. rewrite fold_count.
    replace (count_of (mismatches init_state) col) with 0%nat
      by (destruct col; reflexivity).
    reflexivity.
  - cbn [Nat.add]. f_equal. apply filter_ext. intros i.
    unfold row_differs_at, row_differs, differs_rows. cbn [existsb].
    now rewrite orb_false_r, orb_assoc.
Qed.

Lemma C5_truncation_witness :
  List.length (records tab10) = 10%nat /\ List.length (records tab7) = 7%nat
  /\ (6 < min_len tab10 tab7)%nat
  /\ exists o s, compare_tables tab10 tab7 = inr o
                 /\ out_summary o = Report s
                 /\ total_rows_compared s = 7%nat
                 /\ m_rows (counts s) = 7%nat
                 /\ In (mkStyle 6 "AZ" "#7c2ed2") (out_style_cond_mwd o)
                 /\ ~ In (mkStyle 6 "MD" "#d22e2e") (out_style_cond_mwd o).
Proof.
  split; [reflexivity|]. split; [reflexivity|].
  assert (H6 : (6 < min_len tab10 tab7)%nat) by (cbv; lia).
  split; [exact H6|].
  destruct (C5_truncation tab10 tab7)
    as (_ & o & s & Ho & Hs & _ & _ & _ & _ & H107 & Hcell & _ & _ & Hrows).
  exists o, s. split; [exact Ho|]. split; [exact Hs|].
  split; [apply H107; reflexivity|].
  split; [rewrite Hrows; reflexivity|]. split.
  - destruct (Hcell 6%nat AZ H6) as (l & r & Hl & Hr & Hmwd & _).
    apply Hmwd. injection Hl as <-. injection Hr as <-. reflexivity.
  - destruct (Hcell 6%nat MD H6) as (l & r & Hl & Hr & Hmwd & _).
    intros Hin. apply Hmwd in Hin.
    injection Hl as <-. injection Hr as <-. discriminate Hin.
Defined.

(** ** Exchanging the two sides *)

Lemma num_eqb_sym (x y : num) : num_eqb x y = num_eqb y x.
Proof.
  destruct x as [m1 k1|a], y as [m2 k2|b]; simpl; try reflexivity.
  - apply Z.eqb_sym.
  - destruct a, b; reflexivity.
Qed.

Lemma differs_sym (a b : option num) : differs a b = differs b a.
Proof.
  destruct a, b; simpl; try reflexivity. now rewrite num_eqb_sym.
Qed.

Lemma differs_rows_sym (l r : SurveyRow) (c : canon) :
  differs_rows l r c = differs_rows r l c.
Proof. unfold differs_rows. apply differs_sym. Qed.

Lemma row_step_swap (i : nat) (l r : SurveyRow) (st : State) :
  row_step i r l (swap_state st) = swap_state (row_step i l r st).
Proof.
  unfold row_step, field_step.
  rewrite <- !(differs_rows_sym l r).
  destruct (differs_rows l r MD), (differs_rows l r INC),
    (differs_rows l r AZ);
    unfold swap_state; cbn -[Nat.sub mismatch_styles];
    rewrite ?map_app, ?length_app, ?length_map; reflexivity.
Qed.

Lemma fold_swap (A B : SurveyTable) (idxs : list nat) (st : State) :
  fold_left (loop_step B A) idxs (swap_state st)
  = swap_state (fold_left (loop_step A B) idxs st).
Proof.
  revert st. induction idxs as [|i idxs IH]; intros st.
  - reflexivity.
  - cbn [fold_left]. unfold loop_step at 2. rewrite row_step_swap.
    apply IH.
Qed.

Lemma fold_swap_init (A B : SurveyTable) (idxs : list nat) :
  fold_left (loop_step B A) idxs init_state
  = swap_state (fold_left (loop_step A B) idxs init_state).
Proof. apply (fold_swap A B idxs init_state). Qed.

Lemma min_len_comm (A B : SurveyTable) : min_len B A = min_len A B.
Proof. unfold min_len. apply Nat.min_comm. Qed.

(** C7: comparing with the two frames exchanged gives the same summary
    (the three field counters, the row counter, the accuracy) and the same
    highlight directives; the mismatch records and the two export blocks
    are those of the first comparison with their sides exchanged. *)
Theorem C7_symmetry (A B : SurveyTable) :
  exists o o',
    compare_tables A B = inr o /\ compare_tables B A = inr o'
    /\ out_summary o' = out_summary o
    /\ out_mismatch_rows o' = map swap_sides (out_mismatch_rows o)
    /\ out_mwd_csv o' = out_dd_csv o /\ out_dd_csv o' = out_mwd_csv o
    /\ out_mwd_data o' = out_dd_data o /\ out_dd_data o' = out_mwd_data o
    /\ out_style_cond_mwd o' = out_style_cond_dd o
    /\ out_style_cond_dd o' = out_style_cond_mwd o
    /\ out_style_cond_mismatch o' = out_style_cond_mismatch o.
Proof.
  rewrite !compare_tables_pure. cbv zeta.
  eexists. eexists. split; [reflexivity|]. split; [reflexivity|].
  rewrite (min_len_comm A B).
  rewrite (fold_swap_init A B). cbn. repeat split; reflexivity.
Qed.

(** ** The post-processing of a data region *)

Lemma blank_row_cell (r : list cell) (j : nat) :
  forallb is_blank r = true -> cell_at r j = Blank.
Proof.
  unfold cell_at. revert j. induction r as [|x r IH]; intros j H.
  - destruct j; reflexivity.
  - simpl in H. apply andb_true_iff in H as [Hx Hr].
    destruct j as [|j]; simpl.
    + destruct x; try discriminate. reflexivity.
    + apply IH. exact Hr.
Qed.

Lemma blank_row_dropped (a b c : nat) (r : list cell) :
  forallb is_blank r = true -> all_notnull (coerce_row a b c r) = false.
Proof.
  intros H. unfold all_notnull, coerce_row. cbn [n_MD].
  rewrite (blank_row_cell r a H). reflexivity.
Qed.

Lemma filter_numeric_nonblank (a b c : nat) (region : list (list cell)) :
  filter all_notnull
    (map (coerce_row a b c)
       (filter (fun r => negb (forallb is_blank r)) region))
  = filter all_notnull (map (coerce_row a b c) region).
Proof.
  induction region as [|r region IH]; [reflexivity|].
  cbn [filter map].
  destruct (forallb is_blank r) eqn:E; cbn [negb filter map].
  - rewrite (blank_row_dropped a b c r E). exact IH.
  - destruct (all_notnull _); rewrite IH; reflexivity.
Qed.

Lemma clean_data_inr (region : list (list cell)) (w : nat)
    (hs : list (option canon)) (t : SurveyTable) :
  clean_data region w hs = inr t ->
  List.length hs = w
  /\ exists a b c,
       position MD hs = Some a /\ position INC hs = Some b
       /\ position AZ hs = Some c
       /\ t = mkTable hs
                (map fmt_row
                   (filter all_notnull (map (coerce_row a b c) region))).
Proof.
  unfold clean_data. intros H.
  destruct (Nat.eqb_spec (List.length hs) w) as [Hw|Hw];
    cbn [negb] in H; [|discriminate].
  split; [exact Hw|].
  destruct (position MD hs) as [a|]; [|discriminate].
  destruct (position INC hs) as [b|]; [|discriminate].
  destruct (position AZ hs) as [c|]; [|discriminate].
  exists a, b, c. repeat split.
  rewrite filter_numeric_nonblank in H. injection H as <-. reflexivity.
Qed.

Lemma three_labels_permutation (hs : list (option canon)) (a b c : nat) :
  List.length hs = 3%nat ->
  position MD hs = Some a -> position INC hs = Some b ->
  position AZ hs = Some c ->
  Permutation hs [Some MD; Some INC; Some AZ].
Proof.
  intros Hl.
  destruct hs as [|h1 [|h2 [|h3 [|h4 hs]]]]; try discriminate.
  destruct h1 as [[]|], h2 as [[]|], h3 as [[]|]; cbn;
    intros Ha Hb Hc; try discriminate.
  - apply Permutation_refl.
  - apply perm_skip, perm_swap.
  - apply perm_swap.
  - eapply perm_trans; [apply perm_skip, perm_swap | apply perm_swap].
  - eapply perm_trans; [apply perm_swap | apply perm_skip, perm_swap].
  - eapply perm_trans; [apply perm_swap|].
    eapply perm_trans; [apply perm_skip, perm_swap | apply perm_swap].
Qed.

Lemma clean_data_missing_label (region : list (list cell)) (w : nat)
    (hs : list (option canon)) (c : canon) :
  position c hs = None -> exists e, clean_data region w hs = inl e.
Proof.
  intros H. unfold clean_data.
  destruct (negb _); [eexists; reflexivity|].
  destruct c; rewrite H;
    repeat match goal with
      | |- context [match position ?x hs with _ => _ end] =>
          destruct (position x hs)
      end; eexists; reflexivity.
Qed.

(** ** What a successful strategy went through *)

Lemma bind_inr {X Y} (m : result X) (f : X -> result Y) (y : Y) :
  bind m f = inr y -> exists x, m = inr x /\ f x = inr y.
Proof.
  destruct m as [e|x]; simpl; intros H; [discriminate|]. eauto.
Qed.

Lemma iloc_row_length (df : DataFrame) (i : nat) (cols : list nat)
    (cells : list cell) :
  iloc_row df i cols = inr cells -> List.length cells = List.length cols.
Proof.
  unfold iloc_row. destruct (nth_error (rows df) i); [|discriminate].
  destruct (cols_in_bounds df cols); [|discriminate].
  intros H. injection H as <-. apply length_map.
Qed.

Lemma iloc_from_inr (df : DataFrame) (start : nat) (cols : list nat)
    (region : list (list cell)) :
  iloc_from df start cols = inr region ->
  region = map (fun r => map (cell_at r) cols) (skipn start (rows df)).
Proof.
  unfold iloc_from. destruct (cols_in_bounds df cols); [|discriminate].
  intros H. injection H as <-. reflexivity.
Qed.

Lemma standardize_headers_length (headers : list cell) :
  List.length (standardize_headers headers) = List.length headers.
Proof. unfold standardize_headers. now rewrite !length_map. Qed.

Lemma try_parse_inr (tag : string) (df : DataFrame) (hr : nat)
    (hcols : list nat) (ds : nat) (dcols : list nat) (t : SurveyTable) :
  List.length dcols = 3%nat ->
  try_parse tag df hr hcols ds dcols = inr t ->
  exists headers,
    iloc_row df hr hcols = inr headers
    /\ None_in (standardize_headers headers) = false
    /\ cleaned df headers ds dcols t.
Proof.
  intros Hl H. unfold try_parse in H.
  apply bind_inr in H as (headers & Hh & H).
  destruct (None_in (standardize_headers headers)) eqn:HN; [discriminate|].
  apply bind_inr in H as (region & Hr & H).
  apply iloc_from_inr in Hr. subst region. rewrite Hl in H.
  exists headers. auto.
Qed.

Lemma keyword_table_inr (df : DataFrame) (i : nat) (row : list string)
    (t : SurveyTable) :
  keyword_table df i row = inr t ->
  exists headers,
    iloc_row df i (matching_cols 0 row) = inr headers
    /\ None_in (standardize_headers headers) = false
    /\ cleaned df headers (i + 1) (matching_cols 0 row) t.
Proof.
  intros H. unfold keyword_table in H. cbv zeta in H.
  apply bind_inr in H as (headers & Hh & H).
  destruct (None_in (standardize_headers headers)) eqn:HN; [discriminate|].
  cbn [orb] in H.
  destruct (Nat.eqb_spec (List.length (standardize_headers headers)) 3)
    as [Hl|Hl]; cbn [negb] in H; [|discriminate].
  apply bind_inr in H as (region & Hr & H).
  apply iloc_from_inr in Hr. subst region.
  rewrite standardize_headers_length, (iloc_row_length _ _ _ _ Hh) in Hl.
  rewrite Hl in H. exists headers. auto.
Qed.

Lemma keyword_scan_inr (df : DataFrame) (idxs : list nat) (t : SurveyTable) :
  keyword_scan df idxs = inr (Some t) ->
  exists i r,
    In i idxs /\ nth_error (rows df) i = Some r
    /\ forallb (fun b : bool => b) (row_matches (lowered_row df r)) = true
    /\ keyword_table df i (lowered_row df r) = inr t.
Proof.
  induction idxs as [|i idxs IH]; cbn [keyword_scan]; intros H.
  - discriminate.
  - destruct (nth_error (rows df) i) as [r|] eqn:Er; [|discriminate].
    destruct (forallb _ (row_matches (lowered_row df r))) eqn:Eq.
    + apply bind_inr in H as (t' & Ht & H). injection H as <-.
      exists i, r. repeat split; auto. now left.
    + destruct (IH H) as (j & r' & Hj & Hr' & Hq & Ht).
      exists j, r'. repeat split; auto. now right.
Qed.

Lemma strategy_C_inr (df : DataFrame) (t : SurveyTable) :
  strategy_C df = inr t ->
  exists headers start,
    iloc_row df 69 [0; 1; 2]%nat = inr headers
    /\ None_in (standardize_headers headers) = false
    /\ (start = 71 \/ start = 72)%nat
    /\ cleaned df headers start [0; 1; 2]%nat t.
Proof.
  intros H. unfold strategy_C in H.
  apply bind_inr in H as (headers & Hh & H).
  destruct (None_in (standardize_headers headers)) eqn:HN; [discriminate|].
  apply bind_inr in H as (sample & Hs & H).
  apply bind_inr in H as (region & Hr & H).
  apply iloc_from_inr in Hr. subst region.
  exists headers. eexists.
  split; [exact Hh|]. split; [exact HN|]. split; [|exact H].
  destruct (forallb _ sample); auto.
Qed.

Lemma strategy_A_inr (tag : string) (df : DataFrame) (t : SurveyTable) :
  strategy_A tag df = inr t ->
  let '(hr, cols, ds) := layout_A tag in
  exists headers,
    iloc_row df hr cols = inr headers
    /\ None_in (standardize_headers headers) = false
    /\ cleaned df headers ds cols t.
Proof.
  unfold strategy_A, layout_A.
  destruct (tag =? "MWD")%string; intros H;
    apply try_parse_inr in H; auto.
Qed.

Lemma strategy_B_inr (df : DataFrame) (t : SurveyTable) :
  strategy_B df = inr (Some t) ->
  exists i r headers,
    (i < Nat.min 100 (len df))%nat /\ nth_error (rows df) i = Some r
    /\ forallb (fun b : bool => b) (row_matches (lowered_row df r)) = true
    /\ iloc_row df i (matching_cols 0 (lowered_row df r)) = inr headers
    /\ None_in (standardize_headers headers) = false
    /\ cleaned df headers (i + 1) (matching_cols 0 (lowered_row df r)) t.
Proof.
  intros H. apply keyword_scan_inr in H as (i & r & Hi & Hr & Hq & Ht).
  apply keyword_table_inr in Ht as (headers & Hh & HN & Hc).
  apply in_seq in Hi. exists i, r, headers. repeat split; auto. lia.
Qed.

(** Every frame the cascade returns was cleaned from some data region of
    the sheet (blank rows removed) under some header cells. *)
Lemma parse_survey_file_inr (df : DataFrame) (tag : string)
    (t : SurveyTable) :
  parse_survey_file df tag = inr t ->
  exists headers start cols, cleaned (dropna_all df) headers start cols t.
Proof.
  unfold parse_survey_file. cbv zeta.
  destruct (strategy_A tag (dropna_all df)) as [eA|tA] eqn:EA.
  - destruct (strategy_B (dropna_all df)) as [eB|[tB|]] eqn:EB.
    + destruct (strategy_C (dropna_all df)) as [eC|tC] eqn:EC;
        intros H; [discriminate|]. injection H as <-.
      apply strategy_C_inr in EC as (h & s & _ & _ & _ & Hc). eauto.
    + intros H. injection H as <-.
      apply strategy_B_inr in EB as (i & r & h & _ & _ & _ & _ & _ & Hc).
      eauto.
    + destruct (strategy_C (dropna_all df)) as [eC|tC] eqn:EC;
        intros H; [discriminate|]. injection H as <-.
      apply strategy_C_inr in EC as (h & s & _ & _ & _ & Hc). eauto.
  - intros H. injection H as <-.
    apply strategy_A_inr in EA. destruct (layout_A tag) as [[hr cols] ds].
    destruct EA as (h & _ & _ & Hc). eauto.
Qed.

(** ** Header resolution *)

Lemma cleaned_columns (df : DataFrame) (headers : list cell) (start : nat)
    (cols : list nat) (t : SurveyTable) :
  cleaned df headers start cols t ->
  columns t = standardize_headers headers
  /\ Permutation (standardize_headers headers) canonical3.
Proof.
  intros H. apply clean_data_inr in H as (Hl & a & b & c & Ha & Hb & Hc & ->).
  split; [reflexivity|].
  exact (three_labels_permutation _ a b c Hl Ha Hb Hc).
Qed.

Lemma try_parse_missing_label (tag : string) (df : DataFrame) (hr : nat)
    (hcols : list nat) (ds : nat) (dcols : list nat) (headers : list cell)
    (c : canon) :
  iloc_row df hr hcols = inr headers ->
  position c (standardize_headers headers) = None ->
  exists e, try_parse tag df hr hcols ds dcols = inl e.
Proof.
  intros Hh Hp. unfold try_parse. rewrite Hh. cbn [bind].
  destruct (None_in _); [eexists; reflexivity|].
  destruct (iloc_from df ds dcols) as [e|region]; cbn [bind];
    [eexists; reflexivity|].
  now apply clean_data_missing_label with (c := c).
Qed.

(** C3: a layout strategy returns a frame only when its header cells
    resolve to a permutation of MD, INC, AZ (three labels, none unmapped,
    none repeated), and these labels are the frame's columns; this holds
    for the fixed templates ([try_parse] on three columns), for the keyword
    scan, for the fallback layout and so for the whole cascade.  Header
    cells whose resolution lacks a canonical name (as two MD aliases and an
    INC alias do) make [try_parse] raise. *)
Theorem C3_header_resolution :
  (forall tag df hr hcols ds dcols t,
      List.length dcols = 3%nat ->
      try_parse tag df hr hcols ds dcols = inr t ->
      exists headers,
        iloc_row df hr hcols = inr headers
        /\ columns t = standardize_headers headers
        /\ Permutation (standardize_headers headers) canonical3)
  /\ (forall df i row t,
         keyword_table df i row = inr t ->
         exists headers,
           iloc_row df i (matching_cols 0 row) = inr headers
           /\ columns t = standardize_headers headers
           /\ Permutation (standardize_headers headers) canonical3)
  /\ (forall df t,
         strategy_C df = inr t ->
         exists headers,
           iloc_row df 69 [0; 1; 2]%nat = inr headers
           /\ columns t = standardize_headers headers
           /\ Permutation (standardize_headers headers) canonical3)
  /\ (forall tag df t,
         strategy_A tag df = inr t -> Permutation (columns t) canonical3)
  /\ (forall df t,
         strategy_B df = inr (Some t) -> Permutation (columns t) canonical3)
  /\ (forall df tag t,
         parse_survey_file df tag = inr t ->
         Permutation (columns t) canonical3)
  /\ (forall tag df hr hcols ds dcols headers c,
         iloc_row df hr hcols = inr headers ->
         position c (standardize_headers headers) = None ->
         exists e, try_parse tag df hr hcols ds dcols = inl e).
Proof.
  repeat apply conj.
  - intros tag df hr hcols ds dcols t Hl H.
    apply try_parse_inr in H as (h & Hh & _ & Hc); [|exact Hl].
    apply cleaned_columns in Hc as [Hc Hp]. eauto.
  - intros df i row t H.
    apply keyword_table_inr in H as (h & Hh & _ & Hc).
    apply cleaned_columns in Hc as [Hc Hp]. eauto.
  - intros df t H.
    apply strategy_C_inr in H as (h & s & Hh & _ & _ & Hc).
    apply cleaned_columns in Hc as [Hc Hp]. eauto.
  - intros tag df t H. apply strategy_A_inr in H.
    destruct (layout_A tag) as [[hr cols] ds].
    destruct H as (h & _ & _ & Hc).
    apply cleaned_columns in Hc as [-> Hp]. exact Hp.
  - intros df t H.
    apply strategy_B_inr in H as (i & r & h & _ & _ & _ & _ & _ & Hc).
    apply cleaned_columns in Hc as [-> Hp]. exact Hp.
  - intros df tag t H.
    apply parse_survey_file_inr in H as (h & s & cols & Hc).
    apply cleaned_columns in Hc as [-> Hp]. exact Hp.
  - intros tag df hr hcols ds dcols headers c.
    apply try_parse_missing_label.
Qed.

(** ** Formatted texts read back as numbers *)

Lemma string_of_uint_digits (u : Decimal.uint) :
  all_digits (NilEmpty.string_of_uint u) = true.
Proof. induction u; simpl; auto. Qed.

Lemma string_of_uint_nonempty (u : Decimal.uint) :
  u <> Decimal.Nil -> NilEmpty.string_of_uint u <> "".
Proof. destruct u; simpl; intros H; congruence. Qed.

Lemma dec_string_digits (n : Z) : all_digits (dec_string n) = true.
Proof. apply string_of_uint_digits. Qed.

Lemma dec_string_nonempty (n : Z) : dec_string n <> "".
Proof.
  unfold dec_string. apply string_of_uint_nonempty.
  destruct (Z.to_N n) as [|p]; simpl.
  - discriminate.
  - apply DecimalPos.Unsigned.to_uint_nonnil.
Qed.

Lemma digit_char_is_digit (d : Z) :
  (0 <= d <= 9)%Z -> is_digit (digit_char d) = true.
Proof.
  intros H.
  assert (E : (d = 0 \/ d = 1 \/ d = 2 \/ d = 3 \/ d = 4 \/ d = 5 \/ d = 6
               \/ d = 7 \/ d = 8 \/ d = 9)%Z) by lia.
  repeat (destruct E as [->|E]; [reflexivity|]). subst. reflexivity.
Qed.

Lemma span_digits_app (ds : string) (c : ascii) (rest : string) :
  all_digits ds = true -> is_digit c = false ->
  span_digits (ds ++ String c rest) = (ds, String c rest).
Proof.
  intros Hd Hc. induction ds as [|x ds IH].
  - simpl. now rewrite Hc.
  - simpl in Hd. apply andb_true_iff in Hd as [Hx Hd].
    cbn [append span_digits]. rewrite Hx, (IH Hd). reflexivity.
Qed.

Lemma span_digits_all (ds : string) :
  all_digits ds = true -> span_digits ds = (ds, "").
Proof.
  induction ds as [|x ds IH]; intros Hd; [reflexivity|].
  simpl in Hd. apply andb_true_iff in Hd as [Hx Hd].
  cbn [span_digits]. rewrite Hx, (IH Hd). reflexivity.
Qed.

Lemma digit_not_blank (c : ascii) :
  is_digit c = true -> is_blank_char c = false.
Proof.
  unfold is_digit, is_blank_char. intros H.
  apply andb_true_iff in H as [H1 H2].
  apply N.leb_le in H1. apply N.leb_le in H2.
  apply orb_false_iff. split.
  - apply andb_false_iff. right. apply N.leb_gt. lia.
  - apply N.eqb_neq. lia.
Qed.

Lemma digit_not_sign (c : ascii) (r : string) :
  is_digit c = true -> take_sign (String c r) = (false, String c r).
Proof.
  intros H. unfold take_sign.
  destruct c as [[] [] [] [] [] [] [] []]; try reflexivity; discriminate.
Qed.

(** The reading of a sign, digits, a point and two digits. *)
Lemma parse_decimal_fixed (neg : bool) (ds : string) (c1 c2 : ascii) :
  all_digits ds = true -> ds <> "" ->
  is_digit c1 = true -> is_digit c2 = true ->
  parse_decimal ((if neg then "-" else "")
                 ++ ds ++ String "." (String c1 (String c2 "")))
  = Some (scale neg (digits_value (ds ++ String c1 (String c2 ""))) 2 0).
Proof.
  intros Hd Hne H1 H2. unfold parse_decimal.
  destruct ds as [|d ds]; [congruence|].
  pose proof Hd as Hd'. simpl in Hd'. apply andb_true_iff in Hd' as [Hx _].
  assert (Hs : take_sign (skip_blanks ((if neg then "-" else "")
                 ++ String d ds ++ String "." (String c1 (String c2 ""))))
               = (neg, (String d ds
                          ++ String "." (String c1 (String c2 "")))%string)).
  { destruct neg.
    - reflexivity.
    - cbn [append skip_blanks]. rewrite (digit_not_blank d Hx).
      apply (digit_not_sign d _ Hx). }
  rewrite Hs.
  rewrite (span_digits_app (String d ds) "." _ Hd eq_refl).
  cbn [take_fraction].
  rewrite (span_digits_all (String c1 (String c2 ""))) by
    (simpl; now rewrite H1, H2).
  cbn [String.length]. rewrite Nat.add_comm. cbn [Nat.add Nat.eqb].
  reflexivity.
Qed.

Lemma mod10_range (n : Z) : (0 <= n mod 10 <= 9)%Z.
Proof. pose proof (Z.mod_pos_bound n 10). lia. Qed.

(** ** The value a formatted text reads back to *)

Lemma digits_value_acc_app (s t : string) (acc : Z) :
  digits_value_acc acc (s ++ t) = digits_value_acc (digits_value_acc acc s) t.
Proof.
  revert acc. induction s as [|c s IH]; intros acc; [reflexivity|].
  cbn [append digits_value_acc]. apply IH.
Qed.

Lemma digits_value_uint (u : Decimal.uint) (acc : Z) :
  digits_value_acc acc (NilEmpty.string_of_uint u)
  = (acc * 10 ^ Z.of_N (Unsigned.usize u)
     + Z.of_N (Unsigned.of_lu (Decimal.rev u)))%Z.
Proof.
  revert acc.
  induction u as [|u IH|u IH|u IH|u IH|u IH|u IH|u IH|u IH|u IH|u IH];
    intros acc;
    [ cbn; lia
    | cbn [NilEmpty.string_of_uint digits_value_acc Unsigned.usize];
      unfold Decimal.rev; cbn [Decimal.revapp];
      rewrite (Unsigned.of_lu_revapp u); rewrite IH;
      rewrite N2Z.inj_add, N2Z.inj_mul, N2Z.inj_pow, N2Z.inj_succ,
        Z.pow_succ_r by apply N2Z.is_nonneg;
      cbn [Unsigned.of_lu Unsigned.hd Unsigned.tl]; unfold digit_val;
      match goal with
      | |- context [N_of_ascii ?c] =>
          let v := eval compute in (N_of_ascii c) in
          change (N_of_ascii c) with v
      end; lia .. ].
Qed.

Lemma digits_value_dec_string (n : Z) :
  (0 <= n)%Z -> digits_value (dec_string n) = n.
Proof.
  intros H. unfold digits_value, dec_string.
  rewrite digits_value_uint, <- Unsigned.of_uint_alt.
  change (Pos.of_uint (N.to_uint (Z.to_N n)))
    with (N.of_uint (N.to_uint (Z.to_N n))).
  rewrite DecimalN.Unsigned.of_to. lia.
Qed.

Lemma digit_val_char (d : Z) :
  (0 <= d <= 9)%Z -> digit_val (digit_char d) = d.
Proof.
  intros H.
  assert (E : (d = 0 \/ d = 1 \/ d = 2 \/ d = 3 \/ d = 4 \/ d = 5 \/ d = 6
               \/ d = 7 \/ d = 8 \/ d = 9)%Z) by lia.
  repeat (destruct E as [->|E]; [reflexivity|]). subst. reflexivity.
Qed.

Lemma round_half_even_nonneg (a b : Z) :
  (0 <= a)%Z -> (0 < b)%Z -> (0 <= round_half_even a b)%Z.
Proof.
  intros Ha Hb. unfold round_half_even.
  pose proof (Z.div_pos a b Ha Hb).
  repeat match goal with |- context [if ?c then _ else _] => destruct c end;
    lia.
Qed.

Lemma pow10_pos (k : nat) : (0 < pow10 k)%Z.
Proof. unfold pow10. apply Z.pow_pos_nonneg; lia. Qed.

(** Rounding to the nearest, ties to even, commutes with the sign. *)
Lemma round_half_even_opp (a b : Z) :
  (0 < b)%Z -> round_half_even (- a) b = (- round_half_even a b)%Z.
Proof.
  intros Hb. unfold round_half_even.
  pose proof (Z.mod_pos_bound a b Hb) as Hr.
  destruct (Z.eq_dec (a mod b) 0) as [E|E].
  - rewrite (Z_div_zero_opp_full a b E), (Z_mod_zero_opp_full a b E), E.
    destruct (Z.ltb_spec (2 * 0) b); [reflexivity | lia].
  - rewrite (Z_div_nz_opp_full a b ltac:(lia) E), (Z_mod_nz_opp_full a b E).
    destruct (Z.ltb_spec (2 * (a mod b)) b),
      (Z.ltb_spec b (2 * (a mod b))),
      (Z.ltb_spec (2 * (b - a mod b)) b),
      (Z.ltb_spec b (2 * (b - a mod b))); try lia.
    replace (- (a / b) - 1)%Z with (- ((a / b) + 1))%Z by lia.
    rewrite Z.even_opp, Z.even_add. cbn.
    destruct (Z.even (a / b)); cbn; lia.
Qed.

Lemma two_digits_split (n : Z) :
  (0 <= n)%Z ->
  (((n / 100) * 10 + (n / 10) mod 10) * 10 + n mod 10)%Z = n.
Proof.
  intros H.
  pose proof (Z.div_mod n 10 ltac:(lia)).
  pose proof (Z.div_mod (n / 10) 10 ltac:(lia)).
  replace (n / 100)%Z with (n / 10 / 10)%Z
    by (rewrite Z.div_div by lia; reflexivity).
  lia.
Qed.

(** A formatted number reads back as the number rounded to two decimals. *)
Lemma to_numeric_fmt2_round (x : num) :
  exists y, to_numeric_str (fmt2 x) = Some y
            /\ num_eqb y (round2 x) = true.
Proof.
  destruct x as [m k|[]]; [|eexists; split; reflexivity..].
  unfold fmt2, to_numeric_str. cbv zeta.
  set (n := round_half_even (Z.abs m * 100) (pow10 k)).
  assert (Hn : (0 <= n)%Z)
    by (apply round_half_even_nonneg; [lia | apply pow10_pos]).
  rewrite (parse_decimal_fixed (m <? 0)%Z (dec_string (n / 100))
             (digit_char ((n / 10) mod 10)) (digit_char (n mod 10)));
    [ | apply dec_string_digits | apply dec_string_nonempty
      | apply digit_char_is_digit, mod10_range
      | apply digit_char_is_digit, mod10_range ].
  eexists. split; [reflexivity|].
  unfold digits_value. rewrite digits_value_acc_app.
  fold (digits_value (dec_string (n / 100))).
  rewrite digits_value_dec_string by (apply Z.div_pos; lia).
  cbn [digits_value_acc].
  rewrite !digit_val_char by apply mod10_range.
  rewrite two_digits_split by exact Hn.
  unfold scale, round2, num_eqb. cbn [Z.leb Z.pow].
  apply Z.eqb_eq. f_equal. rewrite Z.mul_1_r.
  destruct (Z.ltb_spec m 0) as [Hm|Hm]; subst n.
  - rewrite Z.abs_neq by lia.
    replace (- m * 100)%Z with (- (m * 100))%Z by lia.
    rewrite round_half_even_opp by apply pow10_pos. lia.
  - rewrite Z.abs_eq by lia. reflexivity.
Qed.

Lemma fmt2_nonempty (x : num) : fmt2 x <> "".
Proof.
  intros H. destruct (to_numeric_fmt2_round x) as (y & Hy & _).
  rewrite H in Hy. discriminate.
Qed.

(** ** Rows of a parsed frame *)

Lemma all_notnull_inv (a b c : nat) (cells : list cell) :
  all_notnull (coerce_row a b c cells) = true ->
  exists x y z,
    to_numeric (cell_at cells a) = Some x
    /\ to_numeric (cell_at cells b) = Some y
    /\ to_numeric (cell_at cells c) = Some z.
Proof.
  unfold all_notnull, coerce_row. cbn [n_MD n_INC n_AZ].
  destruct (to_numeric (cell_at cells a)) as [x|]; [|discriminate].
  destruct (to_numeric (cell_at cells b)) as [y|]; [|discriminate].
  destruct (to_numeric (cell_at cells c)) as [z|]; [|discriminate].
  intros _. exists x, y, z. auto.
Qed.

Lemma kept_rows_sources (region : list (list cell)) (a b c : nat) :
  Forall (numeric_source region a b c)
    (map fmt_row (filter all_notnull (map (coerce_row a b c) region))).
Proof.
  apply Forall_forall. intros r Hr.
  apply in_map_iff in Hr as (nr & <- & Hn).
  apply filter_In in Hn as [Hn Hall].
  apply in_map_iff in Hn as (cells & <- & Hc).
  destruct (all_notnull_inv a b c cells Hall) as (x & y & z & Hx & Hy & Hz).
  exists cells, x, y, z. repeat split; auto.
  unfold fmt_row, coerce_row. cbn [n_MD n_INC n_AZ].
  now rewrite Hx, Hy, Hz.
Qed.

Lemma numeric_source_fields (region : list (list cell)) (a b c : nat)
    (r : SurveyRow) (col : canon) :
  numeric_source region a b c r -> exists x, field r col = fmt2 x.
Proof.
  intros (cells & x & y & z & _ & _ & _ & _ & ->).
  destruct col; cbn; eauto.
Qed.

Lemma cleaned_rows_from (df : DataFrame) (headers : list cell) (start : nat)
    (cols : list nat) (t : SurveyTable) :
  cleaned df headers start cols t -> rows_from df t.
Proof.
  intros H. apply clean_data_inr in H as (_ & a & b & c & Ha & Hb & Hc & ->).
  exists start, cols, a, b, c. cbn [columns records].
  repeat split; auto.
  - apply kept_rows_sources.
  - eapply Forall_impl; [|apply kept_rows_sources].
    intros r Hr col. destruct (numeric_source_fields _ _ _ _ r col Hr) as [x ->].
    apply fmt2_nonempty.
Qed.

Lemma produced_cleaned (df : DataFrame) (t : SurveyTable) :
  produced df t -> exists headers start cols, cleaned df headers start cols t.
Proof.
  intros [[tag H]|[H|H]].
  - apply strategy_A_inr in H. destruct (layout_A tag) as [[hr cols] ds].
    destruct H as (h & _ & _ & Hc). eauto.
  - apply strategy_B_inr in H as (i & r & h & _ & _ & _ & _ & _ & Hc). eauto.
  - apply strategy_C_inr in H as (h & s & _ & _ & _ & Hc). eauto.
Qed.

(** C6: whichever strategy returns the frame, its records are exactly the
    rows of the data region whose MD, INC and AZ cells all read as numbers,
    in order and formatted; every record comes from such a row, and no
    record holds an empty text.  The same holds of the frame the cascade
    returns, on the sheet without its blank rows. *)
Theorem C6_rows_all_numeric :
  (forall df t, produced df t -> rows_from df t)
  /\ (forall df tag t,
         parse_survey_file df tag = inr t -> rows_from (dropna_all df) t).
Proof.
  split.
  - intros df t H. apply produced_cleaned in H as (h & s & cols & Hc).
    eapply cleaned_rows_from; eauto.
  - intros df tag t H. apply parse_survey_file_inr in H as (h & s & cols & Hc).
    eapply cleaned_rows_from; eauto.
Qed.

Lemma parsed_fields_numeric (df : DataFrame) (tag : string) (t : SurveyTable)
    (r : SurveyRow) (col : canon) :
  parse_survey_file df tag = inr t -> In r (records t) ->
  exists n x,
    field r col = fmt2 n /\ to_numeric_str (field r col) = Some x
    /\ num_eqb x (round2 n) = true.
Proof.
  intros H Hr. apply parse_survey_file_inr in H as (h & s & cols & Hc).
  apply cleaned_rows_from in Hc
    as (s' & cols' & a & b & c & _ & _ & _ & _ & Hsrc & _).
  rewrite Forall_forall in Hsrc.
  destruct (numeric_source_fields _ _ _ _ r col (Hsrc r Hr)) as [n Hn].
  destruct (to_numeric_fmt2_round n) as (x & Hx & Hxn).
  exists n, x. rewrite Hn. auto.
Qed.

(** C9: on two frames that [parse_survey_file] returned, the text of a
    compared cell is the two-decimal rendering of a number and reads back
    as that number rounded, on either side; the re-parse never fails, and
    the field is a mismatch exactly when the two rounded values differ. *)
Theorem C9_reparse_never_fails (dfA dfB : DataFrame) (tagA tagB : string)
    (A B : SurveyTable) (i : nat) (col : canon) (l r : string) :
  parse_survey_file dfA tagA = inr A ->
  parse_survey_file dfB tagB = inr B ->
  at_ A i col = inr l ->
  at_ B i col = inr r ->
  exists nl nr x y,
    l = fmt2 nl /\ r = fmt2 nr
    /\ to_numeric_str l = Some x /\ to_numeric_str r = Some y
    /\ num_eqb x (round2 nl) = true /\ num_eqb y (round2 nr) = true
    /\ differs (to_numeric_str l) (to_numeric_str r)
       = negb (num_eqb (round2 x) (round2 y)).
Proof.
  intros HA HB Hl Hr.
  apply at_inr_lt in Hl as [HiA ->]. apply at_inr_lt in Hr as [HiB ->].
  destruct (parsed_fields_numeric dfA tagA A (row_of A i) col HA)
    as (nl & x & Hnl & Hx & Hxn).
  { apply nth_In. exact HiA. }
  destruct (parsed_fields_numeric dfB tagB B (row_of B i) col HB)
    as (nr & y & Hnr & Hy & Hyn).
  { apply nth_In. exact HiB. }
  exists nl, nr, x, y. rewrite Hx, Hy. repeat split; assumption.
Qed.

Lemma C3_header_resolution_witness :
  parse_survey_file csv_small "MWD" = inr small_table
  /\ Permutation (columns small_table) canonical3
  /\ iloc_row dup_sheet 16 [1; 2; 3]%nat
     = inr [Text "MD"; Text "SD"; Text "Inc"]
  /\ position AZ (standardize_headers [Text "MD"; Text "SD"; Text "Inc"])
     = None
  /\ exists e, try_parse "MWD" dup_sheet 16 [1; 2; 3]%nat 18 [1; 2; 3]%nat
               = inl e.
Proof.
  destruct C3_header_resolution as (_ & _ & _ & _ & _ & Hparse & Hmiss).
  split; [reflexivity|]. split.
  - apply (Hparse csv_small "MWD" small_table). reflexivity.
  - split; [reflexivity|]. split; [reflexivity|].
    apply (Hmiss "MWD" dup_sheet 16%nat [1; 2; 3]%nat 18%nat [1; 2; 3]%nat
             [Text "MD"; Text "SD"; Text "Inc"] AZ); reflexivity.
Defined.

Lemma C6_rows_all_numeric_witness :
  parse_survey_file csv_small "MWD" = inr small_table
  /\ rows_from (dropna_all csv_small) small_table.
Proof.
  split; [reflexivity|].
  apply (proj2 C6_rows_all_numeric csv_small "MWD" small_table).
  reflexivity.
Defined.

Lemma C9_reparse_never_fails_witness :
  parse_survey_file csv_small "MWD" = inr small_table
  /\ parse_survey_file csv_small "DD" = inr small_table
  /\ at_ small_table 1 INC = inr "3.00"
  /\ exists x y,
       to_numeric_str "3.00" = Some x /\ to_numeric_str "3.00" = Some y
       /\ differs (to_numeric_str "3.00") (to_numeric_str "3.00")
          = negb (num_eqb (round2 x) (round2 y)).
Proof.
  split; [reflexivity|]. split; [reflexivity|]. split; [reflexivity|].
  destruct (C9_reparse_never_fails csv_small csv_small "MWD" "DD"
              small_table small_table 1%nat INC "3.00" "3.00"
              eq_refl eq_refl eq_refl eq_refl)
    as (nl & nr & x & y & _ & _ & Hx & Hy & _ & _ & Hd).
  exists x, y. auto.
Defined.

(** ** The keyword scan and whitespace *)

(** C4: [standardize_headers] lowers and trims each cell, so the header
    cells of [padded_sheet] resolve to MD, INC, AZ; the keyword scan only
    lowers the cells it tests, finds no header row on that sheet, and the
    cascade fails, while it parses the same sheet with trimmed cells. *)
Theorem C4_keyword_scan_keeps_whitespace :
  standardize_headers [Text " MD"; Text "Inc"; Text "  Azimuth "]
  = [Some MD; Some INC; Some AZ]
  /\ row_matches (lowered_row padded_sheet
                    [Text " MD"; Text "Inc"; Text "  Azimuth "])
     = [false; true; false]
  /\ strategy_B padded_sheet = inr None
  /\ parse_survey_file padded_sheet "MWD"
     = inl (ValueError
              "Failed all parsing methods: single positional indexer is out-of-bounds")
  /\ parse_survey_file trimmed_sheet "MWD"
     = inr (mkTable [Some MD; Some INC; Some AZ]
              [mkRow "100.00" "1.00" "10.00"]).
Proof. repeat split; reflexivity. Qed.

(** ** The cascade and the kinds of exception *)

(** The statement that only a [ValueError] of the first strategy is caught
    fails: on [csv_small] the fixed template raises [IndexError] and the
    cascade goes on to return the frame of the keyword scan. *)
Lemma C8_catches_only_validation_counterexample :
  ~ (forall df tag e,
        strategy_A tag (dropna_all df) = inl e ->
        is_ValueError e = false ->
        parse_survey_file df tag = inl e).
Proof.
  intros H.
  specialize (H csv_small "MWD"
                (IndexError "single positional indexer is out-of-bounds")
                eq_refl eq_refl).
  discriminate H.
Qed.

(** C8 (amended): whatever exception a strategy raises, of any kind, the
    cascade goes on to the next strategy; the cascade itself only ever
    raises a [ValueError], built from the message of the exception of the
    last strategy, and only when the first and the last strategy raised
    and the scan gave no frame. *)
Theorem C8_cascade_catches_everything (df : DataFrame) (tag : string) :
  (forall e t,
      strategy_A tag (dropna_all df) = inl e ->
      strategy_B (dropna_all df) = inr (Some t) ->
      parse_survey_file df tag = inr t)
  /\ (forall e t,
         strategy_A tag (dropna_all df) = inl e ->
         (forall t', strategy_B (dropna_all df) <> inr (Some t')) ->
         strategy_C (dropna_all df) = inr t ->
         parse_survey_file df tag = inr t)
  /\ (forall e,
         parse_survey_file df tag = inl e ->
         exists eA eC,
           strategy_A tag (dropna_all df) = inl eA
           /\ (forall t, strategy_B (dropna_all df) <> inr (Some t))
           /\ strategy_C (dropna_all df) = inl eC
           /\ e = ValueError ("Failed all parsing methods: " ++ str_exn eC)).
Proof.
  unfold parse_survey_file. cbv zeta. repeat apply conj.
  - intros e t HA HB. rewrite HA, HB. reflexivity.
  - intros e t HA HB HC. rewrite HA, HC.
    destruct (strategy_B (dropna_all df)) as [eB|[tB|]] eqn:EB;
      try reflexivity.
    elim (HB tB). reflexivity.
  - intros e.
    destruct (strategy_A tag (dropna_all df)) as [eA|tA]; [|discriminate].
    destruct (strategy_B (dropna_all df)) as [eB|[tB|]]; try discriminate;
      (destruct (strategy_C (dropna_all df)) as [eC|tC]; [|discriminate]);
      intros H; injection H as <-; exists eA, eC;
      (repeat split; [discriminate..]).
Qed.

Lemma C8_cascade_catches_everything_witness :
  strategy_A "MWD" (dropna_all csv_small)
  = inl (IndexError "single positional indexer is out-of-bounds")
  /\ strategy_B (dropna_all csv_small) = inr (Some small_table)
  /\ parse_survey_file csv_small "MWD" = inr small_table
  /\ parse_survey_file padded_sheet "MWD"
     = inl (ValueError
              "Failed all parsing methods: single positional indexer is out-of-bounds")
  /\ exists eA eC,
       strategy_A "MWD" (dropna_all padded_sheet) = inl eA
       /\ strategy_C (dropna_all padded_sheet) = inl eC.
Proof.
  split; [reflexivity|]. split; [reflexivity|]. split.
  - apply (proj1 (C8_cascade_catches_everything csv_small "MWD")
             (IndexError "single positional indexer is out-of-bounds")
             small_table); reflexivity.
  - split; [reflexivity|].
    destruct (proj2 (proj2 (C8_cascade_catches_everything padded_sheet "MWD"))
                _ eq_refl) as (eA & eC & HA & _ & HC & _).
    exists eA, eC. split; assumption.
Defined.

(** * Further properties of the code *)

(** ** Formatting and reading back *)

Lemma to_numeric_fmt2_eq (x : num) :
  to_numeric_str (fmt2 x) = Some (round2 x).
Proof.
  destruct x as [m k|[]]; [|reflexivity..].
  unfold fmt2, to_numeric_str. cbv zeta.
  set (n := round_half_even (Z.abs m * 100) (pow10 k)).
  assert (Hn : (0 <= n)%Z)
    by (apply round_half_even_nonneg; [lia | apply pow10_pos]).
  rewrite (parse_decimal_fixed (m <? 0)%Z (dec_string (n / 100))
             (digit_char ((n / 10) mod 10)) (digit_char (n mod 10)));
    [ | apply dec_string_digits | apply dec_string_nonempty
      | apply digit_char_is_digit, mod10_range
      | apply digit_char_is_digit, mod10_range ].
  unfold digits_value. rewrite digits_value_acc_app.
  fold (digits_value (dec_string (n / 100))).
  rewrite digits_value_dec_string by (apply Z.div_pos; lia).
  cbn [digits_value_acc].
  rewrite !digit_val_char by apply mod10_range.
  rewrite two_digits_split by exact Hn.
  unfold scale, round2.
  change (0 <=? 0)%Z with true. cbv iota.
  change (10 ^ 0)%Z with 1%Z. rewrite Z.mul_1_r.
  f_equal. f_equal.
  destruct (Z.ltb_spec m 0) as [Hm|Hm]; subst n.
  - rewrite Z.abs_neq by lia.
    replace (- m * 100)%Z with (- (m * 100))%Z by lia.
    rewrite round_half_even_opp by apply pow10_pos. lia.
  - rewrite Z.abs_eq by lia. reflexivity.
Qed.

(** ** A parsed frame against itself *)

Lemma num_eqb_refl (x : num) : num_eqb x x = true.
Proof.
  destruct x as [m k|b]; simpl.
  - apply Z.eqb_refl.
  - destruct b; reflexivity.
Qed.

Lemma row_step_same (i : nat) (l r : SurveyRow) (st : State) :
  row_differs l r = false -> row_step i l r st = st.
Proof.
  unfold row_differs. intros H.
  apply orb_false_iff in H as [H HAZ]. apply orb_false_iff in H as [HMD HINC].
  unfold row_step, field_step. now rewrite HMD, HINC, HAZ.
Qed.

Lemma fold_no_mismatch (A B : SurveyTable) (idxs : list nat) (st : State) :
  Forall (fun i => row_differs_at A B i = false) idxs ->
  fold_left (loop_step A B) idxs st = st.
Proof.
  induction 1 as [|i idxs Hi _ IH]; [reflexivity|].
  cbn [fold_left]. unfold loop_step at 2.
  rewrite row_step_same by exact Hi. exact IH.
Qed.

Lemma formatted_field_same (r : SurveyRow) (col : canon) (n : num) :
  field r col = fmt2 n -> differs_rows r r col = false.
Proof.
  intros H. unfold differs_rows. rewrite H, to_numeric_fmt2_eq.
  cbn [differs]. now rewrite num_eqb_refl.
Qed.

Lemma accuracy_of_none (n : nat) : (0 < n)%nat -> accuracy_of 0 n == 100.
Proof.
  intros H. rewrite accuracy_of_formula by exact H.
  cbn [Z.of_nat]. unfold Qdiv. rewrite Qmult_0_l. reflexivity.
Qed.

(** X2: a frame that [parse_survey_file] returned, compared with itself,
    shows no mismatch at all: the four counters are 0, there is no
    directive and no mismatch record, both export blocks are the empty
    text, and the accuracy is 100 as soon as the frame has a record. *)
Theorem X2_parsed_frame_matches_itself (df : DataFrame) (tag : string)
    (A : SurveyTable) :
  parse_survey_file df tag = inr A ->
  exists o s,
    compare_tables A A = inr o /\ out_summary o = Report s
    /\ counts s = mkMis 0 0 0 0
    /\ out_mismatch_rows o = []
    /\ out_style_cond_mwd o = [] /\ out_style_cond_dd o = []
    /\ out_style_cond_mismatch o = []
    /\ out_mwd_csv o = Some "" /\ out_dd_csv o = Some ""
    /\ (records A <> [] -> accuracy s == 100).
Proof.
  intros HA. rewrite compare_tables_pure. cbv zeta.
  rewrite fold_no_mismatch.
  - eexists. eexists. split; [reflexivity|]. split; [reflexivity|].
    cbn. repeat split.
    intros Hne. apply accuracy_of_none. unfold min_len.
    destruct (records A); [congruence | cbn; lia].
  - apply Forall_forall. intros i Hi. apply in_seq in Hi.
    assert (Hin : In (row_of A i) (records A)).
    { apply nth_In. unfold min_len in Hi. lia. }
    unfold row_differs_at, row_differs.
    destruct (parsed_fields_numeric df tag A _ MD HA Hin) as (n1 & _ & H1 & _).
    destruct (parsed_fields_numeric df tag A _ INC HA Hin) as (n2 & _ & H2 & _).
    destruct (parsed_fields_numeric df tag A _ AZ HA Hin) as (n3 & _ & H3 & _).
    now rewrite (formatted_field_same _ _ _ H1), (formatted_field_same _ _ _ H2),
      (formatted_field_same _ _ _ H3).
Qed.

Lemma X2_parsed_frame_matches_itself_witness :
  parse_survey_file csv_small "MWD" = inr small_table
  /\ exists o s,
       compare_tables small_table small_table = inr o
       /\ out_summary o = Report s /\ counts s = mkMis 0 0 0 0
       /\ accuracy s == 100.
Proof.
  split; [reflexivity|].
  destruct (X2_parsed_frame_matches_itself csv_small "MWD" small_table
              eq_refl)
    as (o & s & Ho & Hs & Hc & _ & _ & _ & _ & _ & _ & Hacc).
  exists o, s. repeat split; auto. apply Hacc. discriminate.
Defined.

(** ** What the loop keeps true *)

Lemma row_step_style_mismatch (i : nat) (l r : SurveyRow) (st : State) :
  style_cond_mismatch (row_step i l r st)
  = style_cond_mismatch st
      ++ (if row_differs l r
          then mismatch_styles (List.length (mismatch_rows st))
                 (filter (differs_rows l r) [MD; INC; AZ])
          else []).
Proof.
  cbn [filter].
  split_fields l r; rewrite ?length_app, ?Nat.add_sub, ?app_nil_r;
    reflexivity.
Qed.

Lemma field_styles_length (i : nat) (l r : SurveyRow) :
  List.length (field_styles i l r)
  = (hit (differs_rows l r MD) + hit (differs_rows l r INC)
     + hit (differs_rows l r AZ))%nat.
Proof.
  unfold field_styles. rewrite length_map. cbn [filter].
  destruct (differs_rows l r MD), (differs_rows l r INC),
    (differs_rows l r AZ); reflexivity.
Qed.

Lemma flat_map_length_const {X Y} (f : X -> list Y) (k : nat) (l : list X) :
  (forall x, List.length (f x) = k) ->
  List.length (flat_map f l) = (k * List.length l)%nat.
Proof.
  intros H. induction l as [|x l IH]; simpl; [lia|].
  rewrite length_app, H, IH. lia.
Qed.

Lemma mismatch_styles_length (row : nat) (cols : list canon) :
  List.length (mismatch_styles row cols) = (2 * List.length cols)%nat.
Proof.
  unfold mismatch_styles. apply flat_map_length_const. reflexivity.
Qed.

Lemma mismatch_styles_rows (row : nat) (cols : list canon) :
  Forall (fun d => row_index d = row) (mismatch_styles row cols).
Proof.
  unfold mismatch_styles. apply Forall_forall. intros d Hd.
  apply in_flat_map in Hd as (c & _ & [<-|[<-|[]]]); reflexivity.
Qed.

Lemma field_total_step (i : nat) (l r : SurveyRow) (st : State) :
  field_total (mismatches (row_step i l r st))
  = (field_total (mismatches st)
     + (hit (differs_rows l r MD) + hit (differs_rows l r INC)
        + hit (differs_rows l r AZ)))%nat.
Proof.
  unfold field_total.
  change (m_MD ?m) with (count_of m MD).
  change (m_INC ?m) with (count_of m INC).
  change (m_AZ ?m) with (count_of m AZ).
  rewrite !row_step_count. lia.
Qed.

Lemma row_step_invariant (i : nat) (l r : SurveyRow) (st : State) :
  loop_invariant st -> loop_invariant (row_step i l r st).
Proof.
  unfold loop_invariant.
  intros (Hrows & Hmwd & Hdd & Hsame & Hlen & Hlen2 & Hvalid & Hle).
  rewrite row_step_mismatch_rows, row_step_mwd_csv, row_step_dd_csv,
    row_step_style_mwd, row_step_style_dd, row_step_style_mismatch,
    row_step_rows, field_total_step, !length_app, field_styles_length, Hsame.
  assert (Hf : List.length (filter (differs_rows l r) [MD; INC; AZ])
               = (hit (differs_rows l r MD) + hit (differs_rows l r INC)
                  + hit (differs_rows l r AZ))%nat).
  { cbn [filter]. destruct (differs_rows l r MD), (differs_rows l r INC),
      (differs_rows l r AZ); reflexivity. }
  assert (Hany : (hit (row_differs l r)
                  <= hit (differs_rows l r MD) + hit (differs_rows l r INC)
                     + hit (differs_rows l r AZ))%nat).
  { unfold row_differs. destruct (differs_rows l r MD),
      (differs_rows l r INC), (differs_rows l r AZ); cbn; lia. }
  destruct (row_differs l r) eqn:E; cbn [List.length hit] in *.
  - rewrite mismatch_styles_length, Hf.
    repeat split; try lia.
    apply Forall_app. split.
    + eapply Forall_impl; [|exact Hvalid]. cbn. intros d Hd. lia.
    + eapply Forall_impl; [|apply mismatch_styles_rows].
      cbn. intros d ->. lia.
  - assert (H0 : (hit (differs_rows l r MD) + hit (differs_rows l r INC)
                  + hit (differs_rows l r AZ) = 0)%nat).
    { unfold row_differs in E. apply orb_false_iff in E as [E ->].
      apply orb_false_iff in E as [-> ->]. reflexivity. }
    rewrite H0, !app_nil_r, !Nat.add_0_r.
    repeat split; try lia; assumption.
Qed.

Lemma fold_invariant (A B : SurveyTable) (idxs : list nat) (st : State) :
  loop_invariant st -> loop_invariant (fold_left (loop_step A B) idxs st).
Proof.
  revert st. induction idxs as [|i idxs IH]; intros st H; [exact H|].
  cbn [fold_left]. apply IH. unfold loop_step. now apply row_step_invariant.
Qed.

Lemma init_invariant : loop_invariant init_state.
Proof. unfold loop_invariant. cbn. repeat split; auto. Qed.

Lemma length_filter_orb {X} (f g : X -> bool) (xs : list X) :
  (List.length (filter f xs)
   <= List.length (filter (fun x => f x || g x) xs))%nat.
Proof.
  induction xs as [|x xs IH]; [reflexivity|].
  cbn [filter]. destruct (f x); cbn [orb List.length].
  - lia.
  - destruct (g x); cbn [List.length]; lia.
Qed.

Lemma count_le_rows (A B : SurveyTable) (idxs : list nat) (c : canon) :
  (List.length (filter (differs_at A B c) idxs)
   <= List.length (filter (row_differs_at A B) idxs))%nat.
Proof.
  induction idxs as [|i idxs IH]; [reflexivity|].
  cbn [filter]. unfold row_differs_at at 1, row_differs.
  fold (differs_at A B MD i) (differs_at A B INC i) (differs_at A B AZ i).
  destruct c;
    destruct (differs_at A B MD i), (differs_at A B INC i),
      (differs_at A B AZ i); cbn [orb List.length]; lia.
Qed.

(** X3: whatever the two frames, the counters the summary prints go
    together with the other outputs: each field counter is at most the row
    counter, which is at most their sum; there is one mismatch record per
    counted row; the two source tables get the same directives, one per
    counted field; the mismatch table gets two directives per counted
    field, each pointing at one of its rows. *)
Theorem X3_outputs_agree_with_counters (A B : SurveyTable) :
  exists o s,
    compare_tables A B = inr o /\ out_summary o = Report s
    /\ (forall col, count_of (counts s) col <= m_rows (counts s))%nat
    /\ (m_rows (counts s) <= field_total (counts s))%nat
    /\ List.length (out_mismatch_rows o) = m_rows (counts s)
    /\ out_style_cond_dd o = out_style_cond_mwd o
    /\ List.length (out_style_cond_mwd o) = field_total (counts s)
    /\ List.length (out_style_cond_mismatch o)
       = (2 * field_total (counts s))%nat
    /\ Forall (fun d => (row_index d < List.length (out_mismatch_rows o))%nat)
              (out_style_cond_mismatch o).
Proof.
  rewrite compare_tables_pure. cbv zeta.
  eexists. eexists. split; [reflexivity|]. split; [reflexivity|].
  cbn [counts out_mismatch_rows out_style_cond_dd out_style_cond_mwd
       out_style_cond_mismatch].
  destruct (fold_invariant A B (seq 0 (min_len A B)) init_state
              init_invariant)
    as (Hrows & _ & _ & Hsame & Hlen & Hlen2 & Hvalid & Hle).
  repeat split; try assumption.
  intros col. rewrite fold_count, fold_rows.
  replace (count_of (mismatches init_state) col) with 0%nat
    by (destruct col; reflexivity).
  cbn. apply count_le_rows.
Qed.

(** ** Export blocks and mismatch records *)

Lemma csv_text_empty (csv : list (list string)) :
  csv_text csv = "" <-> csv = [].
Proof.
  destruct csv as [|row csv]; cbn; split; intros H;
    try reflexivity; discriminate.
Qed.

(** X4: each export block is the text of the mismatch records' values for
    its side, one line per record in the order of the records, under the
    line MD,INC,AZ; it is the empty text exactly when no row mismatched. *)
Theorem X4_export_blocks (A B : SurveyTable) :
  exists o s,
    compare_tables A B = inr o /\ out_summary o = Report s
    /\ out_mwd_csv o
       = Some (csv_text (map (fun m => [MWD_MD m; MWD_INC m; MWD_AZ m])
                             (out_mismatch_rows o)))
    /\ out_dd_csv o
       = Some (csv_text (map (fun m => [DD_MD m; DD_INC m; DD_AZ m])
                             (out_mismatch_rows o)))
    /\ (out_mwd_csv o = Some "" <-> m_rows (counts s) = 0%nat)
    /\ (out_dd_csv o = Some "" <-> m_rows (counts s) = 0%nat).
Proof.
  rewrite compare_tables_pure. cbv zeta.
  eexists. eexists. split; [reflexivity|]. split; [reflexivity|].
  cbn [counts out_mismatch_rows out_mwd_csv out_dd_csv].
  destruct (fold_invariant A B (seq 0 (min_len A B)) init_state
              init_invariant) as (Hrows & Hmwd & Hdd & _).
  rewrite fold_mwd_csv, fold_dd_csv, fold_mismatch_rows in *.
  cbn [init_state mwd_mismatch_csv dd_mismatch_csv mismatch_rows] in *.
  rewrite !app_nil_l in *. rewrite !map_map. cbn [mismatch_record MWD_MD
    MWD_INC MWD_AZ DD_MD DD_INC DD_AZ].
  split; [reflexivity|]. split; [reflexivity|].
  split; (split; intros H;
    [ injection H as H; apply csv_text_empty in H; rewrite H in *;
      cbn in *; congruence
    | f_equal; apply csv_text_empty; apply length_zero_iff_nil; congruence ]).
Qed.

Lemma seq_sorted (a n : nat) : StronglySorted lt (seq a n).
Proof.
  revert a. induction n as [|n IH]; intros a; cbn [seq]; constructor.
  - apply IH.
  - apply Forall_forall. intros x Hx. apply in_seq in Hx. lia.
Qed.

Lemma filter_sorted (f : nat -> bool) (l : list nat) :
  StronglySorted lt l -> StronglySorted lt (filter f l).
Proof.
  induction 1 as [|x l Hs IH Hx]; cbn [filter]; [constructor|].
  destruct (f x); [|exact IH]. constructor; [exact IH|].
  apply Forall_forall. intros y Hy. apply filter_In in Hy as [Hy _].
  rewrite Forall_forall in Hx. now apply Hx.
Qed.

Lemma map_succ_sorted (l : list nat) :
  StronglySorted lt l -> StronglySorted lt (map (fun i => (i + 1)%nat) l).
Proof.
  induction 1 as [|x l Hs IH Hx]; cbn [map]; constructor; [exact IH|].
  apply Forall_forall. intros y Hy. apply in_map_iff in Hy as (z & <- & Hz).
  rewrite Forall_forall in Hx. specialize (Hx z Hz). lia.
Qed.

Lemma row_differs_spec (l r : SurveyRow) :
  row_differs l r = true
  <-> exists col, differs (to_numeric_str (field l col))
                          (to_numeric_str (field r col)) = true.
Proof.
  unfold row_differs, differs_rows. split.
  - intros H. apply orb_true_iff in H as [H|H];
      [apply orb_true_iff in H as [H|H]|]; eauto.
  - intros [[] H]; rewrite H; rewrite ?orb_true_r; reflexivity.
Qed.

(** X5: the mismatch records are the compared rows on which some field
    mismatches, each once and in the order of the rows: a record carries
    the 1-based index of its row and the three texts of either side as
    [df.at] reads them, fields that match included; a compared row has a
    record exactly when one of its fields mismatches. *)
Theorem X5_mismatch_records (A B : SurveyTable) :
  exists o,
    compare_tables A B = inr o
    /\ StronglySorted lt (map Index (out_mismatch_rows o))
    /\ (forall m, In m (out_mismatch_rows o) ->
          (1 <= Index m <= min_len A B)%nat
          /\ at_ A (Index m - 1) MD = inr (MWD_MD m)
          /\ at_ A (Index m - 1) INC = inr (MWD_INC m)
          /\ at_ A (Index m - 1) AZ = inr (MWD_AZ m)
          /\ at_ B (Index m - 1) MD = inr (DD_MD m)
          /\ at_ B (Index m - 1) INC = inr (DD_INC m)
          /\ at_ B (Index m - 1) AZ = inr (DD_AZ m))
    /\ (forall i, (i < min_len A B)%nat ->
          ((exists m, In m (out_mismatch_rows o) /\ Index m = (i + 1)%nat)
           <-> exists col l r,
                 at_ A i col = inr l /\ at_ B i col = inr r
                 /\ differs (to_numeric_str l) (to_numeric_str r) = true)).
Proof.
  rewrite compare_tables_pure. cbv zeta.
  eexists. split; [reflexivity|]. cbn [out_mismatch_rows].
  rewrite fold_mismatch_rows. cbn [init_state mismatch_rows].
  rewrite app_nil_l. split; [|split].
  - rewrite map_map. cbn [mismatch_record Index].
    apply map_succ_sorted, filter_sorted, seq_sorted.
  - intros m Hm. apply in_map_iff in Hm as (i & <- & Hi).
    apply filter_In in Hi as [Hi _]. apply in_seq in Hi.
    cbn [mismatch_record Index MWD_MD MWD_INC MWD_AZ DD_MD DD_INC DD_AZ].
    replace (i + 1 - 1)%nat with i by lia.
    rewrite !at_row_of by (unfold min_len in Hi; lia).
    repeat split; lia.
  - intros i Hi. split.
    + intros (m & Hm & Hidx). apply in_map_iff in Hm as (j & <- & Hj).
      cbn [mismatch_record Index] in Hidx.
      assert (j = i) by lia. subst j.
      apply filter_In in Hj as [_ Hj]. unfold row_differs_at in Hj.
      apply row_differs_spec in Hj as [col Hc].
      exists col, (field (row_of A i) col), (field (row_of B i) col).
      unfold min_len in Hi. rewrite !at_row_of by lia. auto.
    + intros (col & l & r & Hl & Hr & Hd).
      apply at_inr_lt in Hl as [_ ->]. apply at_inr_lt in Hr as [_ ->].
      exists (mismatch_record i (row_of A i) (row_of B i)).
      split; [|reflexivity].
      apply in_map_iff. exists i. split; [reflexivity|].
      apply filter_In. split; [apply in_seq; lia|].
      unfold row_differs_at. apply row_differs_spec. eauto.
Qed.

Lemma X5_mismatch_records_witness :
  (0 < min_len tabA tabB)%nat
  /\ exists o m,
       compare_tables tabA tabB = inr o /\ In m (out_mismatch_rows o)
       /\ Index m = 1%nat /\ at_ tabA (Index m - 1) MD = inr (MWD_MD m).
Proof.
  split; [cbv; lia|].
  destruct (X5_mismatch_records tabA tabB) as (o & Ho & _ & Hrec & Hrow).
  destruct (proj2 (Hrow 0%nat ltac:(cbv; lia))) as (m & Hm & Hidx).
  { exists MD, "100.00", "100.01". repeat split. }
  exists o, m. split; [exact Ho|]. split; [exact Hm|].
  split; [exact Hidx|]. apply (Hrec m Hm).
Defined.

(** ** The two ends of the accuracy *)

Lemma ratio_zero (k n : nat) :
  (0 < n)%nat ->
  (inject_Z (Z.of_nat k) / inject_Z (Z.of_nat n) == 0 <-> k = 0%nat).
Proof.
  intros Hn. pose proof (Q_of_nat_pos n Hn) as Hp.
  assert (Hne : ~ inject_Z (Z.of_nat n) == 0) by (intros E; rewrite E in Hp; discriminate).
  split.
  - intros H.
    assert (E : inject_Z (Z.of_nat k) == 0).
    { rewrite <- (Qmult_div_r (inject_Z (Z.of_nat k)) _ Hne), H. ring. }
    apply (inject_Z_injective (Z.of_nat k) 0) in E. lia.
  - intros ->. cbn [Z.of_nat]. unfold Qdiv. ring.
Qed.

Lemma ratio_one (k n : nat) :
  (0 < n)%nat ->
  (inject_Z (Z.of_nat k) / inject_Z (Z.of_nat n) == 1 <-> k = n).
Proof.
  intros Hn. pose proof (Q_of_nat_pos n Hn) as Hp.
  assert (Hne : ~ inject_Z (Z.of_nat n) == 0) by (intros E; rewrite E in Hp; discriminate).
  split.
  - intros H.
    assert (E : inject_Z (Z.of_nat k) == inject_Z (Z.of_nat n)).
    { rewrite <- (Qmult_div_r (inject_Z (Z.of_nat k)) _ Hne), H. ring. }
    apply (inject_Z_injective (Z.of_nat k) (Z.of_nat n)) in E. lia.
  - intros ->. now apply Qmult_inv_r.
Qed.

(** X6: when rows were compared, the accuracy is 100 exactly when there is
    no mismatch record, and 0 exactly when every compared row has one. *)
Theorem X6_accuracy_ends (A B : SurveyTable) :
  (0 < min_len A B)%nat ->
  exists o s,
    compare_tables A B = inr o /\ out_summary o = Report s
    /\ (accuracy s == 100 <-> out_mismatch_rows o = [])
    /\ (accuracy s == 0
        <-> List.length (out_mismatch_rows o) = min_len A B).
Proof.
  intros Hn. rewrite compare_tables_pure. cbv zeta.
  eexists. eexists. split; [reflexivity|]. split; [reflexivity|].
  cbn [accuracy out_mismatch_rows].
  destruct (fold_invariant A B (seq 0 (min_len A B)) init_state
              init_invariant) as (Hrows & _).
  rewrite <- length_zero_iff_nil, Hrows.
  set (k := m_rows _). unfold accuracy_of.
  destruct (Nat.ltb_spec 0 (min_len A B)) as [_|]; [|lia].
  pose proof (ratio_zero k _ Hn) as H0. pose proof (ratio_one k _ Hn) as H1.
  set (q := inject_Z (Z.of_nat k) / inject_Z (Z.of_nat (min_len A B))) in *.
  split.
  - rewrite <- H0. split; intros H; lra.
  - rewrite <- H1. split; intros H; lra.
Qed.

Lemma X6_accuracy_ends_witness :
  (0 < min_len tabA tabB)%nat
  /\ exists o s,
       compare_tables tabA tabB = inr o /\ out_summary o = Report s
       /\ accuracy s == 0.
Proof.
  split; [cbv; lia|].
  destruct (X6_accuracy_ends tabA tabB ltac:(cbv; lia))
    as (o & s & Ho & Hs & _ & H0).
  exists o, s. split; [exact Ho|]. split; [exact Hs|].
  apply H0. injection Ho as <-. reflexivity.
Defined.

(** ** The header standardizer *)

Lemma str_in_In (h : string) (l : list string) :
  str_in h l = true <-> In h l.
Proof.
  unfold str_in. rewrite existsb_exists. split.
  - intros (x & Hx & E). apply String.eqb_eq in E. now subst.
  - intros H. exists h. split; [exact H | apply String.eqb_refl].
Qed.

Lemma lookup_alias_Some (h : string) (k : canon) (aliases : list string) :
  In (k, aliases) COL_MAP ->
  (lookup_alias h COL_MAP = Some k <-> In h aliases).
Proof.
  intros Hk. rewrite <- str_in_In. unfold COL_MAP in *. cbn [lookup_alias].
  destruct Hk as [E|[E|[E|[]]]]; injection E as <- <-; split.
  - destruct (str_in h _); [reflexivity|].
    destruct (str_in h _); [discriminate|].
    destruct (str_in h _); discriminate.
  - intros ->. reflexivity.
  - destruct (str_in h _); [discriminate|].
    destruct (str_in h _); [reflexivity|].
    destruct (str_in h _); discriminate.
  - intros H. apply str_in_In in H.
    repeat (destruct H as [<-|H]; [reflexivity|]). destruct H.
  - destruct (str_in h _); [discriminate|].
    destruct (str_in h _); [discriminate|].
    destruct (str_in h _); [reflexivity | discriminate].
  - intros H. apply str_in_In in H.
    repeat (destruct H as [<-|H]; [reflexivity|]). destruct H.
Qed.

Lemma lookup_alias_None (h : string) :
  lookup_alias h COL_MAP = None
  <-> forall k aliases, In (k, aliases) COL_MAP -> ~ In h aliases.
Proof.
  split.
  - intros H k aliases Hk Hin.
    apply (lookup_alias_Some h k aliases Hk) in Hin. congruence.
  - intros H. destruct (lookup_alias h COL_MAP) as [k|] eqn:E; [|reflexivity].
    exfalso.
    assert (Hk : exists aliases, In (k, aliases) COL_MAP).
    { destruct k; eexists; unfold COL_MAP; cbn; eauto. }
    destruct Hk as [aliases Hk].
    apply (H k aliases Hk). now apply (lookup_alias_Some h k aliases Hk).
Qed.

(** X7: [standardize_headers] works cell by cell and keeps the positions;
    the cell at position [j] resolves to the canonical name [k] exactly
    when its text, lowered and stripped, is one of the aliases of [k] in
    [COL_MAP], and to [None] exactly when it is an alias of no name: the
    alias lists share no text, so the order of the dictionary has no
    influence. *)
Theorem X7_standardize_headers_by_alias (headers : list cell) (j : nat)
    (c : cell) :
  nth_error headers j = Some c ->
  List.length (standardize_headers headers) = List.length headers
  /\ (forall k aliases,
         In (k, aliases) COL_MAP ->
         (nth_error (standardize_headers headers) j = Some (Some k)
          <-> In (strip (lower (py_str c))) aliases))
  /\ (nth_error (standardize_headers headers) j = Some None
      <-> forall k aliases,
            In (k, aliases) COL_MAP ->
            ~ In (strip (lower (py_str c))) aliases).
Proof.
  intros Hc. split; [apply standardize_headers_length|].
  unfold standardize_headers. rewrite map_map.
  rewrite (map_nth_error _ _ _ Hc). split.
  - intros k aliases Hk. rewrite <- (lookup_alias_Some _ k aliases Hk).
    split; intros H; congruence.
  - rewrite <- lookup_alias_None. split; intros H; congruence.
Qed.

Lemma X7_standardize_headers_by_alias_witness :
  nth_error [Text "Depth"; Text " Survey Depth"] 1 = Some (Text " Survey Depth")
  /\ nth_error (standardize_headers [Text "Depth"; Text " Survey Depth"]) 1
     = Some (Some MD).
Proof.
  split; [reflexivity|].
  apply (proj1 (proj2 (X7_standardize_headers_by_alias
                         [Text "Depth"; Text " Survey Depth"] 1
                         (Text " Survey Depth") eq_refl))
           MD ["md"; "measured depth"; "survey depth"; "sd"; "survey"]).
  - left. reflexivity.
  - cbn. auto.
Defined.

Lemma lower_app (a b : string) : lower (a ++ b) = (lower a ++ lower b)%string.
Proof. induction a as [|c a IH]; cbn; [reflexivity | now rewrite IH]. Qed.

Lemma lower_ascii_space (c : ascii) : is_space c = true -> lower_ascii c = c.
Proof.
  unfold is_space, lower_ascii. intros H.
  destruct (N.leb_spec 65 (N_of_ascii c)), (N.leb_spec (N_of_ascii c) 90);
    cbn [andb]; try reflexivity.
  exfalso. apply orb_true_iff in H as [H|H];
    apply andb_true_iff in H as [Ha Hb];
    apply N.leb_le in Ha; apply N.leb_le in Hb; lia.
Qed.

Lemma lower_space (ws : string) : all_space ws = true -> lower ws = ws.
Proof.
  induction ws as [|c ws IH]; cbn; intros H; [reflexivity|].
  apply andb_true_iff in H as [Hc Hw].
  now rewrite (lower_ascii_space c Hc), (IH Hw).
Qed.

Lemma lstrip_app_space (ws s : string) :
  all_space ws = true -> lstrip (ws ++ s) = lstrip s.
Proof.
  induction ws as [|c ws IH]; cbn; intros H; [reflexivity|].
  apply andb_true_iff in H as [Hc Hw]. rewrite Hc. now apply IH.
Qed.

Lemma rstrip_space (ws : string) : all_space ws = true -> rstrip ws = "".
Proof.
  induction ws as [|c ws IH]; cbn; intros H; [reflexivity|].
  apply andb_true_iff in H as [Hc Hw]. rewrite Hc, (IH Hw). reflexivity.
Qed.

Lemma lstrip_space (ws : string) : all_space ws = true -> lstrip ws = "".
Proof.
  induction ws as [|c ws IH]; cbn; intros H; [reflexivity|].
  apply andb_true_iff in H as [Hc Hw]. rewrite Hc. now apply IH.
Qed.

Lemma rstrip_app_space (s ws : string) :
  all_space ws = true -> rstrip (s ++ ws) = rstrip s.
Proof.
  intros H. induction s as [|c s IH]; cbn [append rstrip].
  - now apply rstrip_space.
  - now rewrite IH.
Qed.

Lemma strip_app_space (s ws : string) :
  all_space ws = true -> strip (s ++ ws) = strip s.
Proof.
  intros H. unfold strip. induction s as [|c s IH]; cbn [append lstrip].
  - rewrite (lstrip_space ws H). reflexivity.
  - destruct (is_space c); [exact IH|].
    change (String c (s ++ ws)) with (String c s ++ ws)%string.
    now apply rstrip_app_space.
Qed.

Lemma strip_padded (ws1 s ws2 : string) :
  all_space ws1 = true -> all_space ws2 = true ->
  strip (ws1 ++ s ++ ws2) = strip s.
Proof.
  intros H1 H2. unfold strip. rewrite (lstrip_app_space ws1 _ H1).
  apply (strip_app_space s ws2 H2).
Qed.

(** X8: whitespace around a header text and the case of its letters do
    not change what [standardize_headers] returns. *)
Theorem X8_standardize_headers_padding (before after : list cell)
    (ws1 s s' ws2 : string) :
  all_space ws1 = true -> all_space ws2 = true -> lower s' = lower s ->
  standardize_headers (before ++ Text (ws1 ++ s' ++ ws2) :: after)
  = standardize_headers (before ++ Text s :: after).
Proof.
  intros H1 H2 Hs. unfold standardize_headers.
  rewrite !map_app. cbn [map py_str].
  rewrite !lower_app, Hs, (lower_space ws1 H1), (lower_space ws2 H2).
  now rewrite (strip_padded ws1 (lower s) ws2 H1 H2).
Qed.

Lemma X8_standardize_headers_padding_witness :
  all_space "  " = true /\ lower "AZImuth" = lower "azimuth"
  /\ standardize_headers [Text "md"; Text "  AZImuth "]
     = standardize_headers [Text "md"; Text "azimuth"].
Proof.
  split; [reflexivity|]. split; [reflexivity|].
  apply (X8_standardize_headers_padding [Text "md"] [] "  " "azimuth"
           "AZImuth" " "); reflexivity.
Defined.

(** ** Blank rows of the sheet *)

Lemma filter_idem {X} (f : X -> bool) (l : list X) :
  filter f (filter f l) = filter f l.
Proof.
  induction l as [|x l IH]; [reflexivity|].
  cbn [filter]. destruct (f x) eqn:E; [|exact IH].
  cbn [filter]. now rewrite E, IH.
Qed.

Lemma dropna_all_idem (df : DataFrame) :
  dropna_all (dropna_all df) = dropna_all df.
Proof.
  unfold dropna_all. cbn [ncols rows]. f_equal.
  unfold row_cells. cbn [ncols]. apply filter_idem.
Qed.

Lemma blank_row_cells (n : nat) (b : list cell) (rs : list (list cell)) :
  (forall j, (j < n)%nat -> cell_at b j = Blank) ->
  forallb is_blank (row_cells (mkDF n rs) b) = true.
Proof.
  intros H. unfold row_cells. cbn [ncols]. apply forallb_forall.
  intros c Hc. apply in_map_iff in Hc as (j & <- & Hj).
  apply in_seq in Hj. rewrite H by lia. reflexivity.
Qed.

Lemma dropna_all_blank_row (n : nat) (l1 l2 : list (list cell))
    (b : list cell) :
  (forall j, (j < n)%nat -> cell_at b j = Blank) ->
  dropna_all (mkDF n (l1 ++ b :: l2)) = dropna_all (mkDF n (l1 ++ l2)).
Proof.
  intros H. unfold dropna_all. cbn [ncols rows]. f_equal.
  rewrite !filter_app. cbn [filter].
  change (row_cells {| ncols := n; rows := l1 ++ b :: l2 |})
    with (row_cells (mkDF n (l1 ++ l2))).
  now rewrite (blank_row_cells n b (l1 ++ l2) H).
Qed.

(** X9: rows that are entirely blank play no part in the parse: they are
    removed before any row is addressed, so a sheet parses as the same
    sheet with a blank row put in anywhere (even above a fixed-template
    header), and as the sheet with its blank rows removed. *)
Theorem X9_blank_rows_ignored (n : nat) (l1 l2 : list (list cell))
    (b : list cell) (tag : string) :
  (forall j, (j < n)%nat -> cell_at b j = Blank) ->
  parse_survey_file (mkDF n (l1 ++ b :: l2)) tag
  = parse_survey_file (mkDF n (l1 ++ l2)) tag
  /\ parse_survey_file (dropna_all (mkDF n (l1 ++ l2))) tag
     = parse_survey_file (mkDF n (l1 ++ l2)) tag.
Proof.
  intros H. unfold parse_survey_file. cbv zeta.
  now rewrite (dropna_all_blank_row n l1 l2 b H), dropna_all_idem.
Qed.

Lemma X9_blank_rows_ignored_witness :
  (forall j, (j < 3)%nat -> cell_at [Blank; Blank] j = Blank)
  /\ parse_survey_file
       (mkDF 3 ([[Text "MD"; Text "Inc"; Text "Azimuth"]]
                ++ [Blank; Blank] :: [[Text "100"; Text "1"; Text "10"]]))
       "MWD"
     = parse_survey_file trimmed_sheet "MWD".
Proof.
  assert (H : forall j, (j < 3)%nat -> cell_at [Blank; Blank] j = Blank).
  { intros [|[|[|j]]] Hj; reflexivity. }
  split; [exact H|].
  apply (proj1 (X9_blank_rows_ignored 3
                  [[Text "MD"; Text "Inc"; Text "Azimuth"]]
                  [[Text "100"; Text "1"; Text "10"]] [Blank; Blank]
                  "MWD" H)).
Defined.

(** ** The sizes the fixed layouts need *)

Lemma iloc_row_inr_iff (df : DataFrame) (i : nat) (cols : list nat) :
  (exists cells, iloc_row df i cols = inr cells)
  <-> (i < len df)%nat /\ cols_in_bounds df cols = true.
Proof.
  unfold iloc_row, len. split.
  - intros [cells H].
    destruct (nth_error (rows df) i) eqn:E; [|discriminate].
    destruct (cols_in_bounds df cols); [|discriminate].
    split; [|reflexivity]. apply nth_error_Some. congruence.
  - intros [Hi Hc]. apply nth_error_Some in Hi.
    destruct (nth_error (rows df) i); [|congruence].
    rewrite Hc. eexists; reflexivity.
Qed.

Lemma iloc_row_error (df : DataFrame) (i : nat) (cols : list nat) (e : exn) :
  iloc_row df i cols = inl e -> exists msg, e = IndexError msg.
Proof.
  unfold iloc_row. destruct (nth_error (rows df) i).
  - destruct (cols_in_bounds df cols); intros H; [discriminate|].
    injection H as <-. eauto.
  - intros H. injection H as <-. eauto.
Qed.

Lemma clean_data_not_IndexError (region : list (list cell)) (w : nat)
    (hs : list (option canon)) (msg : string) :
  clean_data region w hs <> inl (IndexError msg).
Proof.
  unfold clean_data. destruct (negb _); [discriminate|].
  destruct (position MD hs); [|discriminate].
  destruct (position INC hs); [|discriminate].
  destruct (position AZ hs); discriminate.
Qed.

Lemma try_parse_IndexError (tag : string) (df : DataFrame) (hr : nat)
    (cols : list nat) (ds : nat) :
  (exists msg, try_parse tag df hr cols ds cols = inl (IndexError msg))
  <-> (len df <= hr)%nat \/ cols_in_bounds df cols = false.
Proof.
  unfold try_parse. split.
  - intros [msg H].
    destruct (iloc_row df hr cols) as [e|headers] eqn:E.
    + destruct (Nat.le_gt_cases (len df) hr) as [Hl|Hl]; [now left|].
      right. destruct (cols_in_bounds df cols) eqn:Hc; [|reflexivity].
      destruct (proj2 (iloc_row_inr_iff df hr cols) (conj Hl Hc)) as [x Hx].
      congruence.
    + exfalso. cbn [bind] in H.
      destruct (None_in _); [discriminate|].
      assert (Hc : cols_in_bounds df cols = true).
      { apply (iloc_row_inr_iff df hr cols). eauto. }
      unfold iloc_from in H. rewrite Hc in H. cbn [bind ret] in H.
      exact (clean_data_not_IndexError _ _ _ _ H).
  - intros H.
    destruct (iloc_row df hr cols) as [e|headers] eqn:E.
    + destruct (iloc_row_error _ _ _ _ E) as [msg ->].
      exists msg. reflexivity.
    + exfalso.
      assert (Hb : (hr < len df)%nat /\ cols_in_bounds df cols = true).
      { apply (iloc_row_inr_iff df hr cols). eauto. }
      destruct H as [H|H]; [lia | destruct Hb; congruence].
Qed.

Lemma cols_123 (df : DataFrame) :
  cols_in_bounds df [1; 2; 3]%nat = false <-> (ncols df <= 3)%nat.
Proof.
  unfold cols_in_bounds. cbn [forallb].
  destruct (Nat.ltb_spec 1 (ncols df)), (Nat.ltb_spec 2 (ncols df)),
    (Nat.ltb_spec 3 (ncols df)); cbn; split; intros; try lia;
    try reflexivity; discriminate.
Qed.

Lemma cols_012 (df : DataFrame) :
  cols_in_bounds df [0; 1; 2]%nat = false <-> (ncols df <= 2)%nat.
Proof.
  unfold cols_in_bounds. cbn [forallb].
  destruct (Nat.ltb_spec 0 (ncols df)), (Nat.ltb_spec 1 (ncols df)),
    (Nat.ltb_spec 2 (ncols df)); cbn; split; intros; try lia;
    try reflexivity; discriminate.
Qed.

(** X10: the fixed template raises [IndexError] exactly when the sheet
    it is given is too small for its header cells: at most 16 rows or at
    most 3 columns for the tag MWD, at most 54 rows or at most 2 columns
    for any other tag.  The fallback layout returns a frame only on a
    sheet of at least 72 rows and 3 columns. *)
Theorem X10_fixed_layout_bounds (df : DataFrame) :
  ((exists msg, strategy_A "MWD" df = inl (IndexError msg))
   <-> (len df <= 16)%nat \/ (ncols df <= 3)%nat)
  /\ (forall tag, tag <> "MWD" ->
        ((exists msg, strategy_A tag df = inl (IndexError msg))
         <-> (len df <= 54)%nat \/ (ncols df <= 2)%nat))
  /\ (forall t, strategy_C df = inr t ->
        (72 <= len df)%nat /\ (3 <= ncols df)%nat).
Proof.
  split; [|split].
  - unfold strategy_A. cbn [String.eqb Ascii.eqb Bool.eqb andb].
    rewrite try_parse_IndexError, cols_123. reflexivity.
  - intros tag Ht. unfold strategy_A.
    apply String.eqb_neq in Ht. rewrite Ht.
    rewrite try_parse_IndexError, cols_012. reflexivity.
  - intros t H. unfold strategy_C in H.
    apply bind_inr in H as (headers & Hh & H).
    destruct (None_in _); [discriminate|].
    apply bind_inr in H as (sample & Hs & _).
    assert (H71 : (71 < len df)%nat /\ cols_in_bounds df [0; 1; 2]%nat = true).
    { apply (iloc_row_inr_iff df 71 [0; 1; 2]%nat). eauto. }
    destruct H71 as [Hl Hc]. split; [lia|].
    destruct (Nat.le_gt_cases (ncols df) 2) as [Hn|Hn]; [|lia].
    apply cols_012 in Hn. congruence.
Qed.

Lemma X10_fixed_layout_bounds_witness :
  "DD" <> "MWD"
  /\ (exists msg, strategy_A "DD" csv_small = inl (IndexError msg))
  /\ forall t, strategy_C csv_small <> inr t.
Proof.
  assert (Hne : "DD" <> "MWD") by discriminate.
  split; [exact Hne|]. split.
  - apply (proj1 (proj2 (X10_fixed_layout_bounds csv_small)) "DD" Hne).
    left. cbv. lia.
  - intros t H.
    apply (proj2 (proj2 (X10_fixed_layout_bounds csv_small))) in H.
    cbv in H. lia.
Defined.

(** ** The keyword scan *)

Lemma matching_cols_bounds (row : list string) (j x : nat) :
  In x (matching_cols j row) -> (j <= x < j + List.length row)%nat.
Proof.
  revert j. induction row as [|cell row IH]; intros j H; [destruct H|].
  cbn [matching_cols] in H. cbn [List.length].
  destruct (matches_any cell).
  - destruct H as [<-|H]; [lia|]. apply IH in H. lia.
  - apply IH in H. lia.
Qed.

Lemma lowered_row_length (df : DataFrame) (r : list cell) :
  List.length (lowered_row df r) = ncols df.
Proof.
  unfold lowered_row, row_cells. now rewrite !length_map, length_seq.
Qed.

Lemma matching_cols_in_bounds (df : DataFrame) (r : list cell) :
  cols_in_bounds df (matching_cols 0 (lowered_row df r)) = true.
Proof.
  unfold cols_in_bounds. apply forallb_forall. intros x Hx.
  apply matching_cols_bounds in Hx. rewrite lowered_row_length in Hx.
  apply Nat.ltb_lt. lia.
Qed.

(** The cells the scan selects are the cells of the row whose lowered text
    is an alias, in the order of the columns. *)
Lemma matching_cols_cells (r : list cell) (j n : nat) :
  map (cell_at r)
      (matching_cols j
         (map (fun c => lower (py_str c)) (map (cell_at r) (seq j n))))
  = filter (fun c => matches_any (lower (py_str c)))
           (map (cell_at r) (seq j n)).
Proof.
  revert j. induction n as [|n IH]; intros j; [reflexivity|].
  cbn [seq map matching_cols filter].
  destruct (matches_any (lower (py_str (cell_at r j)))); cbn [map];
    now rewrite IH.
Qed.

Lemma matches_any_alias (h : string) :
  matches_any h = true <->
  exists k aliases, In (k, aliases) COL_MAP /\ In h aliases.
Proof.
  unfold matches_any, COL_MAP_values. rewrite existsb_exists. split.
  - intros (aliases & Ha & Hin). apply in_map_iff in Ha as ([k a] & <- & Hk).
    exists k, a. split; [exact Hk | now apply str_in_In].
  - intros (k & aliases & Hk & Hin). exists aliases. split.
    + apply in_map_iff. exists (k, aliases). auto.
    + now apply str_in_In.
Qed.

Lemma alias_stripped (h : string) (k : canon) (aliases : list string) :
  In (k, aliases) COL_MAP -> In h aliases -> strip h = h.
Proof.
  unfold COL_MAP. intros Hk Hin.
  destruct Hk as [E|[E|[E|[]]]]; injection E as <- <-;
    repeat (destruct Hin as [<-|Hin]; [reflexivity|]); destruct Hin.
Qed.

Lemma selected_cell_resolves (c : cell) (k : canon) (aliases : list string) :
  In (k, aliases) COL_MAP -> In (lower (py_str c)) aliases ->
  lookup_alias (strip (lower (py_str c))) COL_MAP = Some k.
Proof.
  intros Hk Hin. rewrite (alias_stripped _ k aliases Hk Hin).
  now apply (lookup_alias_Some _ k aliases Hk).
Qed.

Lemma position_in (k : canon) (hs : list (option canon)) :
  In (Some k) hs -> exists a, position k hs = Some a.
Proof.
  induction hs as [|h hs IH]; intros H; [destruct H|].
  cbn [position]. destruct h as [k'|].
  - destruct (canon_eqb k k') eqn:E; [eauto|].
    destruct H as [H|H].
    + injection H as ->. destruct k; discriminate.
    + destruct (IH H) as [a ->]. cbn. eauto.
  - destruct H as [H|H]; [discriminate|].
    destruct (IH H) as [a ->]. cbn. eauto.
Qed.

Lemma qualifying_row_labels (df : DataFrame) (r : list cell) (k : canon) :
  forallb (fun b : bool => b) (row_matches (lowered_row df r)) = true ->
  In (Some k)
     (standardize_headers
        (filter (fun c => matches_any (lower (py_str c))) (row_cells df r))).
Proof.
  intros H. rewrite forallb_forall in H.
  assert (Hk : exists aliases, In (k, aliases) COL_MAP).
  { destruct k; eexists; unfold COL_MAP; cbn; eauto. }
  destruct Hk as [aliases Hk].
  specialize (H (existsb (fun cell => str_in cell aliases)
                         (lowered_row df r))).
  assert (Hex : existsb (fun cell => str_in cell aliases) (lowered_row df r)
                = true).
  { apply H. unfold row_matches, COL_MAP_values. rewrite map_map.
    apply in_map_iff. exists (k, aliases). auto. }
  apply existsb_exists in Hex as (h & Hh & Hin).
  unfold lowered_row in Hh. apply in_map_iff in Hh as (c & <- & Hc).
  apply str_in_In in Hin.
  unfold standardize_headers. rewrite map_map. apply in_map_iff.
  exists c. split.
  - now apply (selected_cell_resolves c k aliases).
  - apply filter_In. split; [exact Hc|].
    apply matches_any_alias. eauto.
Qed.

Lemma selected_cells_resolve (cells : list cell) :
  None_in
    (standardize_headers
       (filter (fun c => matches_any (lower (py_str c))) cells)) = false.
Proof.
  unfold None_in. apply not_true_iff_false. intros H.
  apply existsb_exists in H as ([k|] & Hin & Hn); [discriminate|].
  unfold standardize_headers in Hin. rewrite map_map in Hin.
  apply in_map_iff in Hin as (c & Hc & Hf).
  apply filter_In in Hf as [_ Hm].
  apply matches_any_alias in Hm as (k & aliases & Hk & Ha).
  rewrite (selected_cell_resolves c k aliases Hk Ha) in Hc. discriminate.
Qed.

Lemma scan_headers (df : DataFrame) (r : list cell) :
  map (cell_at r) (matching_cols 0 (lowered_row df r))
  = filter (fun c => matches_any (lower (py_str c))) (row_cells df r).
Proof. unfold lowered_row, row_cells. apply matching_cols_cells. Qed.

(** What the scan does on a row that qualifies. *)
Lemma keyword_table_result (df : DataFrame) (i : nat) (r : list cell) :
  nth_error (rows df) i = Some r ->
  forallb (fun b : bool => b) (row_matches (lowered_row df r)) = true ->
  let cols := matching_cols 0 (lowered_row df r) in
  (List.length cols = 3%nat ->
   exists t, keyword_table df i (lowered_row df r) = inr t
             /\ cleaned df (map (cell_at r) cols) (i + 1) cols t)
  /\ (List.length cols <> 3%nat ->
      keyword_table df i (lowered_row df r) = inl keyword_failure).
Proof.
  intros Hr Hq cols. unfold keyword_table. cbv zeta. fold cols.
  pose proof (matching_cols_in_bounds df r) as Hb. fold cols in Hb.
  unfold iloc_row, iloc_from. rewrite Hr, Hb. cbn [bind ret].
  assert (HN : None_in (standardize_headers (map (cell_at r) cols)) = false).
  { unfold cols. rewrite scan_headers. apply selected_cells_resolve. }
  assert (HL : List.length (standardize_headers (map (cell_at r) cols))
               = List.length cols).
  { now rewrite standardize_headers_length, length_map. }
  rewrite HN, HL. cbn [orb].
  split; intros Hl.
  - rewrite Hl. cbn [Nat.eqb negb]. unfold cleaned.
    destruct (clean_data _ 3 _) as [e|t] eqn:E; [|eauto].
    exfalso. unfold clean_data in E.
    rewrite HL, Hl in E. cbn [Nat.eqb negb] in E.
    unfold cols in E. rewrite scan_headers in E.
    destruct (position_in MD _ (qualifying_row_labels df r MD Hq)) as [a Ha].
    destruct (position_in INC _ (qualifying_row_labels df r INC Hq))
      as [b Hb'].
    destruct (position_in AZ _ (qualifying_row_labels df r AZ Hq)) as [c Hc].
    rewrite Ha, Hb', Hc in E. discriminate.
  - apply Nat.eqb_neq in Hl. rewrite Hl. reflexivity.
Qed.

Lemma qualifies_row (df : DataFrame) (i : nat) :
  qualifies df i = true ->
  exists r, nth_error (rows df) i = Some r
            /\ forallb (fun b : bool => b)
                 (row_matches (lowered_row df r)) = true.
Proof.
  unfold qualifies. destruct (nth_error (rows df) i) as [r|];
    [eauto | discriminate].
Qed.

Lemma keyword_scan_find (df : DataFrame) (idxs : list nat) :
  Forall (fun i => (i < len df)%nat) idxs ->
  keyword_scan df idxs
  = match find (qualifies df) idxs with
    | None => inr None
    | Some i =>
        match nth_error (rows df) i with
        | Some r => t <- keyword_table df i (lowered_row df r) ;; ret (Some t)
        | None => inr None
        end
    end.
Proof.
  induction 1 as [|i idxs Hi _ IH]; [reflexivity|].
  cbn [keyword_scan find]. unfold qualifies at 1.
  apply nth_error_Some in Hi.
  destruct (nth_error (rows df) i) as [r|] eqn:Er; [|congruence].
  destruct (forallb _ (row_matches (lowered_row df r)));
    [now rewrite Er | exact IH].
Qed.

Lemma scan_range (df : DataFrame) :
  Forall (fun i => (i < len df)%nat) (seq 0 (Nat.min 100 (len df))).
Proof. apply Forall_forall. intros i Hi. apply in_seq in Hi. lia. Qed.

(** X11: the keyword scan is decided by the first row, among the first 100
    of the sheet, in which each canonical name has an alias cell (texts
    lowered, not stripped).  Without such a row it returns nothing.  With
    one, it returns a frame when exactly three cells of that row are
    aliases: the frame cleaned from the rows below it under those three
    columns; otherwise it raises its [ValueError] and no later row is
    tried.  It raises nothing else. *)
Theorem X11_keyword_scan_first_row (df : DataFrame) :
  (find (qualifies df) (seq 0 (Nat.min 100 (len df))) = None ->
   strategy_B df = inr None)
  /\ (forall i,
        find (qualifies df) (seq 0 (Nat.min 100 (len df))) = Some i ->
        exists r,
          nth_error (rows df) i = Some r
          /\ let cols := matching_cols 0 (lowered_row df r) in
             (List.length cols = 3%nat ->
              exists t, strategy_B df = inr (Some t)
                        /\ cleaned df (map (cell_at r) cols) (i + 1) cols t)
             /\ (List.length cols <> 3%nat ->
                 strategy_B df = inl keyword_failure))
  /\ (forall e, strategy_B df = inl e -> e = keyword_failure).
Proof.
  unfold strategy_B. rewrite (keyword_scan_find df _ (scan_range df)).
  split; [|split].
  - intros ->. reflexivity.
  - intros i Hf. rewrite Hf.
    destruct (find_some _ _ Hf) as [_ Hq].
    apply qualifies_row in Hq as (r & Hr & Hq).
    exists r. split; [exact Hr|]. rewrite Hr. cbv zeta.
    destruct (keyword_table_result df i r Hr Hq) as [H3 Hn3].
    split; intros Hl.
    + destruct (H3 Hl) as (t & Ht & Hc). exists t. rewrite Ht. auto.
    + now rewrite (Hn3 Hl).
  - intros e.
    destruct (find (qualifies df) _) as [i|] eqn:Hf; [|discriminate].
    destruct (find_some _ _ Hf) as [_ Hq].
    apply qualifies_row in Hq as (r & Hr & Hq). rewrite Hr.
    destruct (keyword_table_result df i r Hr Hq) as [H3 Hn3].
    destruct (Nat.eq_dec (List.length (matching_cols 0 (lowered_row df r))) 3)
      as [Hl|Hl].
    + destruct (H3 Hl) as (t & -> & _). discriminate.
    + rewrite (Hn3 Hl). cbn. congruence.
Qed.

Lemma X11_keyword_scan_first_row_witness :
  find (qualifies padded_sheet) (seq 0 (Nat.min 100 (len padded_sheet)))
  = None
  /\ strategy_B padded_sheet = inr None
  /\ find (qualifies wide_sheet) (seq 0 (Nat.min 100 (len wide_sheet)))
     = Some 0%nat
  /\ strategy_B wide_sheet = inl keyword_failure
  /\ find (qualifies trimmed_sheet) (seq 0 (Nat.min 100 (len trimmed_sheet)))
     = Some 0%nat
  /\ exists t, strategy_B trimmed_sheet = inr (Some t).
Proof.
  split; [reflexivity|]. split.
  { apply (proj1 (X11_keyword_scan_first_row padded_sheet)). reflexivity. }
  split; [reflexivity|]. split.
  { destruct (proj1 (proj2 (X11_keyword_scan_first_row wide_sheet)) 0%nat
                eq_refl) as (r & Hr & _ & Hn3).
    injection Hr as <-. apply Hn3. cbv. discriminate. }
  split; [reflexivity|].
  destruct (proj1 (proj2 (X11_keyword_scan_first_row trimmed_sheet)) 0%nat
              eq_refl) as (r & Hr & H3 & _).
  injection Hr as <-. destruct H3 as (t & Ht & _); [reflexivity|].
  exists t. exact Ht.
Defined.

(** ** The start row of the fallback layout *)

Lemma skipn_nth_error {X} (l : list X) (n : nat) (x : X) :
  nth_error l n = Some x -> skipn n l = x :: skipn (S n) l.
Proof.
  revert n. induction l as [|y l IH]; intros [|n] H; try discriminate.
  - injection H as ->. reflexivity.
  - cbn [skipn]. cbn [nth_error] in H. rewrite (IH n H). reflexivity.
Qed.

(** A row of three cells that are not all numbers does not survive the
    post-processing, wherever the three labels lie. *)
Lemma clean_data_skip_row (x0 x1 x2 : cell) (region : list (list cell))
    (hs : list (option canon)) :
  forallb (fun c => notnull (to_numeric c)) [x0; x1; x2] = false ->
  clean_data ([x0; x1; x2] :: region) 3 hs = clean_data region 3 hs.
Proof.
  intros Hx. unfold clean_data.
  destruct (Nat.eqb_spec (List.length hs) 3) as [Hl|Hl]; cbn [negb];
    [|reflexivity].
  destruct hs as [|h1 [|h2 [|h3 [|h4 hs]]]]; try discriminate.
  cbn [filter].
  destruct h1 as [[]|], h2 as [[]|], h3 as [[]|]; cbn [position canon_eqb
    option_map]; try reflexivity;
    match goal with
    | |- context [coerce_row ?a ?b ?c] =>
        assert (Hd : all_notnull (coerce_row a b c [x0; x1; x2]) = false)
          by (unfold all_notnull, coerce_row;
              cbn [n_MD n_INC n_AZ cell_at nth]; cbn [forallb] in Hx;
              destruct (notnull (to_numeric x0)), (notnull (to_numeric x1)),
                (notnull (to_numeric x2)); try discriminate; reflexivity)
    end;
    (destruct (negb (forallb is_blank [x0; x1; x2])); [|reflexivity]);
    cbn [map filter]; rewrite Hd; reflexivity.
Qed.

(** X12: the fallback layout starts its data at row 72 instead of row 71
    when the three cells of row 71 are not all numbers; such a row would
    be dropped with the other non-numeric rows anyway, so the frame is
    always the one cleaned from row 71 on: the layout returns [t] exactly
    when the header cells of row 69 all resolve, row 71 exists and the
    rows from 71 on clean to [t]. *)
Theorem X12_fallback_start_row (df : DataFrame) (t : SurveyTable) :
  strategy_C df = inr t
  <-> exists headers,
        iloc_row df 69 [0; 1; 2]%nat = inr headers
        /\ None_in (standardize_headers headers) = false
        /\ (71 < len df)%nat
        /\ cleaned df headers 71 [0; 1; 2]%nat t.
Proof.
  unfold strategy_C, cleaned. split.
  - intros H. apply bind_inr in H as (headers & Hh & H).
    destruct (None_in (standardize_headers headers)) eqn:HN; [discriminate|].
    apply bind_inr in H as (sample & Hs & H).
    apply bind_inr in H as (region & Hr & H).
    apply iloc_from_inr in Hr. subst region.
    exists headers. split; [exact Hh|]. split; [exact HN|].
    assert (Hl : (71 < len df)%nat).
    { apply (iloc_row_inr_iff df 71 [0; 1; 2]%nat). eauto. }
    split; [exact Hl|].
    destruct (forallb _ sample) eqn:Es; [exact H|].
    unfold iloc_row in Hs.
    destruct (nth_error (rows df) 71) as [r71|] eqn:E71; [|discriminate].
    destruct (cols_in_bounds df [0; 1; 2]%nat); [|discriminate].
    injection Hs as <-.
    rewrite (skipn_nth_error _ _ _ E71). cbn [map] in *.
    now rewrite clean_data_skip_row.
  - intros (headers & Hh & HN & Hl & Hc).
    rewrite Hh. cbn [bind]. rewrite HN.
    assert (Hb : cols_in_bounds df [0; 1; 2]%nat = true).
    { apply (iloc_row_inr_iff df 69 [0; 1; 2]%nat). eauto. }
    unfold iloc_row, iloc_from. rewrite Hb.
    unfold len in Hl. apply nth_error_Some in Hl.
    destruct (nth_error (rows df) 71) as [r71|] eqn:E71; [|congruence].
    cbn [bind ret].
    destruct (forallb _ (map (cell_at r71) [0; 1; 2]%nat)) eqn:Es;
      [exact Hc|].
    rewrite (skipn_nth_error _ _ _ E71) in Hc. cbn [map] in *.
    now rewrite clean_data_skip_row in Hc.
Qed.

Lemma X12_fallback_start_row_witness :
  strategy_C wsp_sheet
  = inr (mkTable [Some MD; Some INC; Some AZ] [mkRow "100.00" "1.50" "10.00"])
  /\ cleaned wsp_sheet [Text "MD"; Text "Inc"; Text "Azi"] 71 [0; 1; 2]%nat
       (mkTable [Some MD; Some INC; Some AZ] [mkRow "100.00" "1.50" "10.00"]).
Proof.
  split; [reflexivity|].
  destruct (proj1 (X12_fallback_start_row wsp_sheet
                     (mkTable [Some MD; Some INC; Some AZ]
                        [mkRow "100.00" "1.50" "10.00"])) eq_refl)
    as (headers & Hh & _ & _ & Hc).
  injection Hh as <-. exact Hc.
Defined.

(** ** The source tag *)

Lemma try_parse_tag (tag1 tag2 : string) (df : DataFrame) (hr : nat)
    (hcols : list nat) (ds : nat) (dcols : list nat) :
  match try_parse tag1 df hr hcols ds dcols,
        try_parse tag2 df hr hcols ds dcols with
  | inr t1, inr t2 => t1 = t2
  | inl _, inl _ => True
  | _, _ => False
  end.
Proof.
  unfold try_parse. destruct (iloc_row df hr hcols) as [e|headers];
    cbn [bind]; [exact I|].
  destruct (None_in _); [exact I|].
  destruct (iloc_from df ds dcols) as [e|region]; cbn [bind]; [exact I|].
  destruct (clean_data _ _ _); [exact I | reflexivity].
Qed.

(** X13: the source tag only chooses between the two fixed templates: two
    tags other than MWD give the same result on every sheet (the tag
    appears in a message of the first strategy that the cascade drops). *)
Theorem X13_tag_only_selects_template (df : DataFrame) (tag1 tag2 : string) :
  tag1 <> "MWD" -> tag2 <> "MWD" ->
  parse_survey_file df tag1 = parse_survey_file df tag2.
Proof.
  intros H1 H2. unfold parse_survey_file, strategy_A. cbv zeta.
  apply String.eqb_neq in H1. apply String.eqb_neq in H2. rewrite H1, H2.
  pose proof (try_parse_tag tag1 tag2 (dropna_all df) 54 [0; 1; 2]%nat 56
                [0; 1; 2]%nat) as H.
  destruct (try_parse tag1 _ _ _ _ _), (try_parse tag2 _ _ _ _ _);
    try contradiction; [reflexivity | now subst].
Qed.

Lemma X13_tag_only_selects_template_witness :
  "DD" <> "MWD" /\ "Gyro" <> "MWD"
  /\ parse_survey_file csv_small "DD" = parse_survey_file csv_small "Gyro".
Proof.
  assert (H1 : "DD" <> "MWD") by discriminate.
  assert (H2 : "Gyro" <> "MWD") by discriminate.
  split; [exact H1|]. split; [exact H2|].
  exact (X13_tag_only_selects_template csv_small "DD" "Gyro" H1 H2).
Defined.

(** ** The callback as a whole *)

(** X14: [update_tables] never raises.  It reports a comparison only when
    both uploads are present and both parse, and then shows the two parsed
    frames in full; in every other case all nine outputs are empty but the
    summary, which is the prompt when an upload is absent and otherwise
    the message of the first parse that failed, the MWD one first. *)
Theorem X14_update_tables_outcomes (mwd_contents dd_contents : option DataFrame) :
  exists o,
    update_tables mwd_contents dd_contents = inr o
    /\ ((exists s, out_summary o = Report s)
        <-> exists mwd dd A B,
              mwd_contents = Some mwd /\ dd_contents = Some dd
              /\ parse_survey_file mwd "MWD" = inr A
              /\ parse_survey_file dd "DD" = inr B
              /\ out_mwd_data o = records A /\ out_dd_data o = records B)
    /\ ((mwd_contents = None \/ dd_contents = None) ->
        o = empty_outputs UploadBoth)
    /\ (forall mwd dd e,
          mwd_contents = Some mwd -> dd_contents = Some dd ->
          parse_survey_file mwd "MWD" = inl e ->
          o = empty_outputs (ErrorParsing (str_exn e)))
    /\ (forall mwd dd A e,
          mwd_contents = Some mwd -> dd_contents = Some dd ->
          parse_survey_file mwd "MWD" = inr A ->
          parse_survey_file dd "DD" = inl e ->
          o = empty_outputs (ErrorParsing (str_exn e))).
Proof.
  unfold update_tables.
  destruct mwd_contents as [mwd|], dd_contents as [dd|].
  2-4: (eexists; split; [reflexivity|]; cbn; repeat split;
        try (intros [s H]; discriminate);
        try (intros (? & ? & ? & ? & ? & ? & _); discriminate);
        try (intros; discriminate)).
  destruct (parse_survey_file mwd "MWD") as [eA|A] eqn:EA.
  { eexists. split; [reflexivity|]. cbn. repeat split.
    - intros [s H]. discriminate.
    - intros (m' & d' & A' & B' & Hm & _ & HA & _).
      injection Hm as <-. congruence.
    - intros [H|H]; discriminate.
    - intros m' d' e Hm _ He. injection Hm as <-. congruence.
    - intros m' d' A' e Hm _ HA. injection Hm as <-. congruence. }
  destruct (parse_survey_file dd "DD") as [eB|B] eqn:EB.
  { eexists. split; [reflexivity|]. cbn. repeat split.
    - intros [s H]. discriminate.
    - intros (m' & d' & A' & B' & _ & Hd & _ & HB & _).
      injection Hd as <-. congruence.
    - intros [H|H]; discriminate.
    - intros m' d' e Hm _ He. injection Hm as <-. congruence.
    - intros m' d' A' e _ Hd _ He. injection Hd as <-. congruence. }
  rewrite compare_tables_pure. cbv zeta.
  eexists. split; [reflexivity|]. cbn [out_summary out_mwd_data out_dd_data].
  repeat split.
  - intros _. exists mwd, dd, A, B. repeat split; assumption.
  - intros _. eexists. reflexivity.
  - intros [H|H]; discriminate.
  - intros m' d' e Hm _ He. injection Hm as <-. congruence.
  - intros m' d' A' e _ Hd _ He. injection Hd as <-. congruence.
Qed.

Lemma X14_update_tables_outcomes_witness :
  parse_survey_file padded_sheet "MWD"
  = inl (ValueError
           "Failed all parsing methods: single positional indexer is out-of-bounds")
  /\ update_tables (Some padded_sheet) (Some csv_small)
     = inr (empty_outputs
              (ErrorParsing
                 "Failed all parsing methods: single positional indexer is out-of-bounds"))
  /\ update_tables None (Some csv_small) = inr (empty_outputs UploadBoth).
Proof.
  split; [reflexivity|]. split.
  - destruct (X14_update_tables_outcomes (Some padded_sheet) (Some csv_small))
      as (o & Ho & _ & _ & Herr & _).
    rewrite Ho. f_equal.
    apply (Herr padded_sheet csv_small _ eq_refl eq_refl eq_refl).
  - destruct (X14_update_tables_outcomes None (Some csv_small))
      as (o & Ho & _ & Habs & _).
    rewrite Ho. f_equal. apply Habs. left. reflexivity.
Defined.
